(** * Depthify: the upload page's job lifecycle and the static model viewer

    A shallow embedding of
    - [my-react-depthify/src/services/api.js] (module [Api]),
    - [my-react-depthify/src/pages/UploadPage.jsx] (module [UploadPage]),
    - [depthify-backend/models/exports/..._viewer.html] (module [Viewer]).

    JavaScript values that cross the network are kept as a small JSON-like
    value type; numbers are exact rationals.  Asynchronous functions are
    unfolded into the continuations between their [await]s, and the page is
    a transition system driven by user input, promise settlements and
    timers. *)

From Stdlib Require Import List String Ascii Bool Arith ZArith QArith Qminmax Lia Lqa.
Import ListNotations.
Open Scope string_scope.
Set Warnings "-register-all".

(** ** JavaScript values *)

Module Json.

Inductive jsval : Type :=
| JUndefined
| JNull
| JBool (b : bool)
| JNum (q : Q)
| JStr (s : string)
| JArr (items : list jsval)
| JObj (fields : list (string * jsval))
| JBlob (bytes : string).

(** ToBoolean: [undefined], [null], [false], [0] and the empty string are
    falsy, every object is truthy.  Values parsed from JSON are never NaN. *)
Definition truthy (v : jsval) : bool :=
  match v with
  | JUndefined | JNull => false
  | JBool b => b
  | JNum q => negb (Qeq_bool q 0)
  | JStr s => negb (String.eqb s "")
  | JArr _ | JObj _ | JBlob _ => true
  end.

(** [a || b] *)
Definition js_or (a b : jsval) : jsval := if truthy a then a else b.

(** Own property of a parsed object: the last binding of the key wins, a
    missing key reads as [undefined]. *)
Fixpoint lookup (k : string) (fields : list (string * jsval)) : jsval :=
  match fields with
  | [] => JUndefined
  | (k', v) :: rest =>
      match lookup k rest with
      | JUndefined => if String.eqb k k' then v else JUndefined
      | found => found
      end
  end.

Definition has_field (k : string) (fields : list (string * jsval)) : bool :=
  existsb (fun kv => String.eqb k (fst kv)) fields.

(** [o.k]: reading a property of [undefined] or [null] throws a TypeError
    ([None]); primitives and blobs have none of the properties the pages
    read. *)
Definition get (o : jsval) (k : string) : option jsval :=
  match o with
  | JUndefined | JNull => None
  | JObj fields => Some (lookup k fields)
  | _ => Some JUndefined
  end.

(** The error object of a failed property read; it has no [error] field. *)
Definition TypeError : jsval := JObj [("name", JStr "TypeError")].

Section ToString.

(** Number::toString of the host, on the rationals that stand for numbers. *)
Variable NumberToString : Q -> string.

Definition element_string (str : jsval -> string) (v : jsval) : string :=
  match v with
  | JUndefined | JNull => ""
  | _ => str v
  end.

(** The string a template literal interpolates for a value. *)
Fixpoint ToString (v : jsval) : string :=
  match v with
  | JUndefined => "undefined"
  | JNull => "null"
  | JBool true => "true"
  | JBool false => "false"
  | JNum q => NumberToString q
  | JStr s => s
  | JArr items => String.concat "," (map (element_string ToString) items)
  | JObj _ => "[object Object]"
  | JBlob _ => "[object Blob]"
  end.

End ToString.

(** A number printer for closed examples: decimal digits of the integer
    part and of a terminating fraction, as Number::toString prints such
    numbers (15420, 2.3). *)
Fixpoint digits (fuel : nat) (n : N) (acc : string) : string :=
  match fuel with
  | O => acc
  | S fuel' =>
      let d := ascii_of_N (48 + N.modulo n 10) in
      let acc' := String d acc in
      if N.leb n 9 then acc' else digits fuel' (N.div n 10) acc'
  end.

Definition print_N (n : N) : string := digits (S (N.to_nat (N.log2 n))) n "".

Fixpoint fraction (fuel : nat) (r d : N) : string :=
  match fuel with
  | O => ""
  | S fuel' =>
      if N.eqb r 0 then ""
      else String (ascii_of_N (48 + N.div (10 * r) d)) (fraction fuel' (N.modulo (10 * r) d) d)
  end.

Definition print_number (q : Q) : string :=
  let n := Z.abs_N (Qnum q) in
  let d := Npos (Qden q) in
  let sign := if Z.ltb (Qnum q) 0 then "-" else "" in
  let frac := fraction 17 (N.modulo n d) d in
  sign ++ print_N (N.div n d) ++ (if String.eqb frac "" then "" else "." ++ frac).

End Json.

Import Json.

(** ** services/api.js *)

Module Api.

Definition BASE_URL : string := "http://127.0.0.1:5000/api".

Record File := { file_name : string; file_type : string; file_data : string }.

Inductive Method := GET | POST.

Inductive FormValue := FormFile (f : File) | FormText (s : string).

Inductive Body := NoBody | FormData (entries : list (string * FormValue)).

Record Request := {
  req_method : Method;
  req_url : string;
  req_body : Body;
  req_blob : bool  (* responseType: 'blob' *)
}.

(** How the axios promise behind a request settles: fulfilled with the
    response body, or rejected, with the body of the error response when
    the server sent one. *)
Inductive AxiosOutcome :=
| Fulfilled (data : jsval)
| Rejected (response : option jsval).

(** What an [async] wrapper hands to its caller. *)
Inductive Completion := Return (v : jsval) | Throw (v : jsval).

(** [try { return response.data } catch (error) { throw error.response?.data || { error: fallback } }] *)
Definition settle (fallback : string) (o : AxiosOutcome) : Completion :=
  match o with
  | Fulfilled data => Return data
  | Rejected response =>
      let data := match response with Some d => d | None => JUndefined end in
      Throw (js_or data (JObj [("error", JStr fallback)]))
  end.

Section Requests.

Variable NumberToString : Q -> string.
Let str := ToString NumberToString.

(** [projectAPI.uploadImage(file, projectName, objectType)], [userId = 1] *)
Definition uploadImage_request (file : File) (projectName objectType : string) : Request :=
  {| req_method := POST;
     req_url := BASE_URL ++ "/upload";
     req_body := FormData [("file", FormFile file);
                           ("project_name", FormText projectName);
                           ("object_type", FormText objectType);
                           ("user_id", FormText (str (JNum 1)))];
     req_blob := false |}.

(** [projectAPI.processProject(projectId)] *)
Definition processProject_request (projectId : jsval) : Request :=
  {| req_method := POST;
     req_url := BASE_URL ++ "/process/" ++ str projectId;
     req_body := NoBody;
     req_blob := false |}.

(** [projectAPI.downloadProject(projectId)] *)
Definition downloadProject_request (projectId : jsval) : Request :=
  {| req_method := GET;
     req_url := BASE_URL ++ "/projects/" ++ str projectId ++ "/download";
     req_body := NoBody;
     req_blob := true |}.

End Requests.

Definition uploadImage_result := settle "Upload failed".
Definition processProject_result := settle "Processing failed".
Definition downloadProject_result := settle "Download failed".

(** *** The read-only services *)

Section Reads.

Variable NumberToString : Q -> string.

Definition get_request (path : string) : Request :=
  {| req_method := GET; req_url := BASE_URL ++ path; req_body := NoBody; req_blob := false |}.

(** [projectAPI.getUserProjects(userId)] *)
Definition getUserProjects_request (userId : jsval) : Request :=
  get_request ("/projects?user_id=" ++ ToString NumberToString userId).

(** [projectAPI.getProject(projectId)] *)
Definition getProject_request (projectId : jsval) : Request :=
  get_request ("/projects/" ++ ToString NumberToString projectId).

End Reads.

(** [galleryAPI.getGallery()], [systemAPI.healthCheck()], [systemAPI.getStats()] *)
Definition getGallery_request : Request := get_request "/gallery".
Definition healthCheck_request : Request := get_request "/health".
Definition getStats_request : Request := get_request "/stats".

Definition getUserProjects_result := settle "Failed to fetch projects".
Definition getProject_result := settle "Failed to fetch project".
Definition getGallery_result := settle "Failed to fetch gallery".
Definition healthCheck_result := settle "Health check failed".
Definition getStats_result := settle "Failed to fetch stats".

(** *** Utility functions *)

(** [handleAPIError(error)]; [None] when reading a property throws. *)
Definition handleAPIError (error : jsval) : option jsval :=
  match get error "response" with
  | None => None
  | Some response =>
      if truthy response
      then match get response "data" with
           | None => None
           | Some data =>
               match get data "error" with
               | None => None
               | Some e => Some (js_or e (JStr "Server error"))
               end
           end
      else match get error "request" with
           | None => None
           | Some request =>
               if truthy request
               then Some (JStr "No response from server. Please check your connection.")
               else Some (JStr "An unexpected error occurred")
           end
  end.

(** [testConnection()], by how the health check's request settles. *)
Definition testConnection (o : AxiosOutcome) : bool :=
  match healthCheck_result o with
  | Return _ => true
  | Throw _ => false
  end.

(** An error body that carries no [response] and no [request] of its own;
    every body that is not an object is one. *)
Definition plain_body (response : option jsval) : bool :=
  match response with
  | Some (JObj fields) => negb (has_field "response" fields) && negb (has_field "request" fields)
  | _ => true
  end.

End Api.

Import Api.

(** ** pages/UploadPage.jsx *)

Module UploadPage.

Record Stats := { vertices : jsval; faces : jsval; processingTime : string }.

Record Result3D := {
  r_projectId : jsval;
  plyFile : string;
  stlFile : string;
  previewImage : option string;
  stats : Stats
}.

(** The [useState] cells of the component. *)
Record State := {
  uploadedImage : option string;
  uploadedFile : option File;
  projectId : jsval;
  isProcessing : bool;
  processingStep : nat;
  result3D : option Result3D;
  dragOver : bool;
  objectType : string;
  error : jsval
}.

Definition initial : State :=
  {| uploadedImage := None; uploadedFile := None; projectId := JNull;
     isProcessing := false; processingStep := 0; result3D := None;
     dragOver := false; objectType := "auto"; error := JStr "" |}.

Definition setUploadedImage v (s : State) : State :=
  {| uploadedImage := v; uploadedFile := uploadedFile s; projectId := projectId s;
     isProcessing := isProcessing s; processingStep := processingStep s;
     result3D := result3D s; dragOver := dragOver s; objectType := objectType s;
     error := error s |}.
Definition setUploadedFile v (s : State) : State :=
  {| uploadedImage := uploadedImage s; uploadedFile := v; projectId := projectId s;
     isProcessing := isProcessing s; processingStep := processingStep s;
     result3D := result3D s; dragOver := dragOver s; objectType := objectType s;
     error := error s |}.
Definition setProjectId v (s : State) : State :=
  {| uploadedImage := uploadedImage s; uploadedFile := uploadedFile s; projectId := v;
     isProcessing := isProcessing s; processingStep := processingStep s;
     result3D := result3D s; dragOver := dragOver s; objectType := objectType s;
     error := error s |}.
Definition setIsProcessing v (s : State) : State :=
  {| uploadedImage := uploadedImage s; uploadedFile := uploadedFile s; projectId := projectId s;
     isProcessing := v; processingStep := processingStep s;
     result3D := result3D s; dragOver := dragOver s; objectType := objectType s;
     error := error s |}.
Definition setProcessingStep v (s : State) : State :=
  {| uploadedImage := uploadedImage s; uploadedFile := uploadedFile s; projectId := projectId s;
     isProcessing := isProcessing s; processingStep := v;
     result3D := result3D s; dragOver := dragOver s; objectType := objectType s;
     error := error s |}.
Definition setResult3D v (s : State) : State :=
  {| uploadedImage := uploadedImage s; uploadedFile := uploadedFile s; projectId := projectId s;
     isProcessing := isProcessing s; processingStep := processingStep s;
     result3D := v; dragOver := dragOver s; objectType := objectType s;
     error := error s |}.
Definition setDragOver v (s : State) : State :=
  {| uploadedImage := uploadedImage s; uploadedFile := uploadedFile s; projectId := projectId s;
     isProcessing := isProcessing s; processingStep := processingStep s;
     result3D := result3D s; dragOver := v; objectType := objectType s;
     error := error s |}.
Definition setObjectType v (s : State) : State :=
  {| uploadedImage := uploadedImage s; uploadedFile := uploadedFile s; projectId := projectId s;
     isProcessing := isProcessing s; processingStep := processingStep s;
     result3D := result3D s; dragOver := dragOver s; objectType := v;
     error := error s |}.
Definition setError v (s : State) : State :=
  {| uploadedImage := uploadedImage s; uploadedFile := uploadedFile s; projectId := projectId s;
     isProcessing := isProcessing s; processingStep := processingStep s;
     result3D := result3D s; dragOver := dragOver s; objectType := objectType s;
     error := v |}.

Definition processingSteps : list string :=
  [ "Analyzing image...";
    "Removing background...";
    "Generating depth map...";
    "Creating 3D model...";
    "Optimizing mesh...";
    "Adding colors...";
    "Finalizing..." ].

(** An invocation of [startProcessing] suspended at one of its [await]s.
    [image] is the [uploadedImage] of the render whose handler was clicked;
    [AwaitTimer i] is the [setTimeout] of loop iteration [i]. *)
Inductive Task :=
| AwaitUpload (image : option string)
| AwaitTimer (i : nat) (newProjectId : jsval) (image : option string)
| AwaitProcess (newProjectId : jsval) (image : option string)
| Done.

(** What [link.click()] hands to the browser. *)
Record SavedFile := { download_name : string; download_blob : jsval }.

(** The page and everything in flight around it. *)
Record World := {
  ui : State;
  tasks : list Task;                               (* startProcessing invocations *)
  readers : list (option File);                    (* FileReaders not yet loaded *)
  downloads : list (option (Result3D * string));   (* handleDownload invocations *)
  net : list Request;                              (* requests sent, oldest first *)
  saved : list SavedFile
}.

Definition start : World :=
  {| ui := initial; tasks := []; readers := []; downloads := []; net := []; saved := [] |}.

Definition with_ui (f : State -> State) (w : World) : World :=
  {| ui := f (ui w); tasks := tasks w; readers := readers w; downloads := downloads w;
     net := net w; saved := saved w |}.
Definition with_tasks (t : list Task) (w : World) : World :=
  {| ui := ui w; tasks := t; readers := readers w; downloads := downloads w;
     net := net w; saved := saved w |}.
Definition with_readers (r : list (option File)) (w : World) : World :=
  {| ui := ui w; tasks := tasks w; readers := r; downloads := downloads w;
     net := net w; saved := saved w |}.
Definition with_downloads (d : list (option (Result3D * string))) (w : World) : World :=
  {| ui := ui w; tasks := tasks w; readers := readers w; downloads := d;
     net := net w; saved := saved w |}.
Definition send (r : Request) (w : World) : World :=
  {| ui := ui w; tasks := tasks w; readers := readers w; downloads := downloads w;
     net := net w ++ [r]; saved := saved w |}.
Definition save (f : SavedFile) (w : World) : World :=
  {| ui := ui w; tasks := tasks w; readers := readers w; downloads := downloads w;
     net := net w; saved := saved w ++ [f] |}.

Fixpoint set_nth {A} (k : nat) (x : A) (l : list A) : list A :=
  match l, k with
  | [], _ => []
  | _ :: rest, O => x :: rest
  | y :: rest, S k' => y :: set_nth k' x rest
  end.

Section Handlers.

Variable NumberToString : Q -> string.
Let str := ToString NumberToString.

(** *** handleFileSelect *)

Definition is_image (file : option File) : bool :=
  match file with
  | Some f => String.prefix "image/" (file_type f)
  | None => false
  end.

Definition handleFileSelect (file : option File) (w : World) : World :=
  if is_image file
  then with_readers (readers w ++ [file]) w
  else with_ui (setError (JStr "Please select a valid image file")) w.

(** [reader.onload] *)
Definition reader_onload (file : File) (dataUrl : string) (w : World) : World :=
  with_ui (fun s =>
    setProjectId JNull (setError (JStr "") (setResult3D None
      (setUploadedFile (Some file) (setUploadedImage (Some dataUrl) s))))) w.

Definition handleDrop (file : option File) (w : World) : World :=
  handleFileSelect file (with_ui (setDragOver false) w).

Definition handleFileInputChange (file : option File) (w : World) : World :=
  handleFileSelect file w.

(** *** startProcessing *)

(** The [stats] of the result, from [processResponse.project]. *)
Definition stats_of (project : jsval) : option Stats :=
  match get project "vertices_count", get project "faces_count",
        get project "processing_time" with
  | Some v, Some f, Some t =>
      Some {| vertices := js_or v (JNum 15420);
              faces := js_or f (JNum 30840);
              processingTime := str (js_or t (JNum 2.3)) ++ "s" |}
  | _, _, _ => None
  end.

Definition result_of (newProjectId : jsval) (image : option string)
    (processResponse : jsval) : option Result3D :=
  match get processResponse "project" with
  | Some project =>
      match stats_of project with
      | Some st =>
          Some {| r_projectId := newProjectId;
                  plyFile := "/api/projects/" ++ str newProjectId ++ "/download";
                  stlFile := "/api/projects/" ++ str newProjectId ++ "/download";
                  previewImage := image;
                  stats := st |}
      | None => None
      end
  | None => None
  end.

(** [catch (error) { setError(error.error || ...) } finally { setIsProcessing(false) }] *)
Definition catch_finally (thrown : jsval) (s : State) : State :=
  match get thrown "error" with
  | Some e =>
      setIsProcessing false
        (setError (js_or e (JStr "Processing failed. Please try again.")) s)
  | None => setIsProcessing false s
  end.

(** The synchronous prefix, up to [await projectAPI.uploadImage(...)]. *)
Definition startProcessing (now : Z) (w : World) : World :=
  match uploadedFile (ui w) with
  | None => w
  | Some file =>
      let s := ui w in
      let w1 := with_ui (fun s => setError (JStr "") (setProcessingStep 0 (setIsProcessing true s))) w in
      let w2 := send (uploadImage_request NumberToString file
                        ("Project_" ++ str (JNum (inject_Z now))) (objectType s)) w1 in
      with_tasks (tasks w ++ [AwaitUpload (uploadedImage s)]) w2
  end.

(** From the settlement of the upload to the first [setTimeout]. *)
Definition after_upload (k : nat) (image : option string) (o : AxiosOutcome) (w : World) : World :=
  match uploadImage_result o with
  | Return uploadResponse =>
      match get uploadResponse "project_id" with
      | Some newProjectId =>
          with_tasks (set_nth k (AwaitTimer 1 newProjectId image) (tasks w))
            (with_ui (fun s => setProcessingStep 1 (setProcessingStep 1
                                 (setProjectId newProjectId s))) w)
      | None => with_tasks (set_nth k Done (tasks w)) (with_ui (catch_finally TypeError) w)
      end
  | Throw e => with_tasks (set_nth k Done (tasks w)) (with_ui (catch_finally e) w)
  end.

(** One turn of [for (let i = 1; i < processingSteps.length; i++)] after its
    timer fired: the next iteration, or the exit to
    [await projectAPI.processProject(newProjectId)]. *)
Definition after_timer (k i : nat) (newProjectId : jsval) (image : option string)
    (w : World) : World :=
  if Nat.ltb (S i) (List.length processingSteps)
  then with_tasks (set_nth k (AwaitTimer (S i) newProjectId image) (tasks w))
         (with_ui (setProcessingStep (S i)) w)
  else with_tasks (set_nth k (AwaitProcess newProjectId image) (tasks w))
         (send (processProject_request NumberToString newProjectId) w).

(** From the settlement of the process call to the end of the function. *)
Definition after_process (k : nat) (newProjectId : jsval) (image : option string)
    (o : AxiosOutcome) (w : World) : World :=
  with_tasks (set_nth k Done (tasks w))
    match processProject_result o with
    | Return processResponse =>
        match result_of newProjectId image processResponse with
        | Some r => with_ui (fun s => setIsProcessing false (setResult3D (Some r) s)) w
        | None => with_ui (catch_finally TypeError) w
        end
    | Throw e => with_ui (catch_finally e) w
    end.

(** *** resetUpload *)

Definition resetUpload (s : State) : State :=
  setProjectId JNull (setError (JStr "") (setProcessingStep 0 (setIsProcessing false
    (setResult3D None (setUploadedFile None (setUploadedImage None s)))))).

(** *** handleDownload *)

(** Up to [await projectAPI.downloadProject(result3D.projectId)]; [r] is the
    [result3D] of the render whose button was clicked. *)
Definition handleDownload (format : string) (r : Result3D) (w : World) : World :=
  with_downloads (downloads w ++ [Some (r, format)])
    (send (downloadProject_request NumberToString (r_projectId r)) w).

Definition after_download (k : nat) (r : Result3D) (format : string) (o : AxiosOutcome)
    (w : World) : World :=
  with_downloads (set_nth k None (downloads w))
    match downloadProject_result o with
    | Return response =>
        save {| download_name := "model_" ++ str (r_projectId r) ++ "." ++ format;
                download_blob := response |} w
    | Throw _ => with_ui (setError (JStr "Download failed. Please try again.")) w
    end.

(** *** The rendered page *)

Record View := {
  error_banner : option jsval;
  drop_zone : bool;
  reset_button : bool;
  generate_button : bool;
  phase_label : option string;
  result_panel : option Result3D
}.

Definition render (s : State) : View :=
  let has_image := match uploadedImage s with Some _ => true | None => false end in
  let has_result := match result3D s with Some _ => true | None => false end in
  {| error_banner := if truthy (error s) then Some (error s) else None;
     drop_zone := negb has_image;
     reset_button := has_image;
     generate_button := has_image && negb (isProcessing s) && negb has_result;
     phase_label := if isProcessing s
                    then Some (nth (processingStep s) processingSteps "")
                    else None;
     result_panel := result3D s |}.

(** *** Events *)

Inductive Event :=
| DragOver
| DragLeave
| Drop (file : option File)
| FileInputChange (file : option File)
| ReaderLoad (k : nat) (dataUrl : string)
| SelectObjectType (value : string)
| ClickGenerate (now : Z)
| UploadSettled (k : nat) (o : AxiosOutcome)
| TimerFired (k : nat)
| ProcessSettled (k : nat) (o : AxiosOutcome)
| ClickReset
| ClickDownload (format : string)
| DownloadSettled (k : nat) (o : AxiosOutcome).

Definition guard (b : bool) (w : World) : option World := if b then Some w else None.

(** One event; [None] when the page offers no such event: the control is
    not rendered, or nothing of that kind is pending. *)
Definition step (w : World) (e : Event) : option World :=
  let v := render (ui w) in
  match e with
  | DragOver => guard (drop_zone v) (with_ui (setDragOver true) w)
  | DragLeave => guard (drop_zone v) (with_ui (setDragOver false) w)
  | Drop file => guard (drop_zone v) (handleDrop file w)
  | FileInputChange file => guard (drop_zone v) (handleFileInputChange file w)
  | ReaderLoad k dataUrl =>
      match nth_error (readers w) k with
      | Some (Some file) =>
          Some (reader_onload file dataUrl (with_readers (set_nth k None (readers w)) w))
      | _ => None
      end
  | SelectObjectType value => guard (reset_button v) (with_ui (setObjectType value) w)
  | ClickGenerate now => guard (generate_button v) (startProcessing now w)
  | UploadSettled k o =>
      match nth_error (tasks w) k with
      | Some (AwaitUpload image) => Some (after_upload k image o w)
      | _ => None
      end
  | TimerFired k =>
      match nth_error (tasks w) k with
      | Some (AwaitTimer i newProjectId image) => Some (after_timer k i newProjectId image w)
      | _ => None
      end
  | ProcessSettled k o =>
      match nth_error (tasks w) k with
      | Some (AwaitProcess newProjectId image) => Some (after_process k newProjectId image o w)
      | _ => None
      end
  | ClickReset => guard (reset_button v) (with_ui resetUpload w)
  | ClickDownload format =>
      match result_panel v with
      | Some r => Some (handleDownload format r w)
      | None => None
      end
  | DownloadSettled k o =>
      match nth_error (downloads w) k with
      | Some (Some (r, format)) => Some (after_download k r format o w)
      | _ => None
      end
  end.

(** The worlds passed through by a sequence of events, one per event. *)
Fixpoint run (w : World) (es : list Event) : option (list World) :=
  match es with
  | [] => Some []
  | e :: rest =>
      match step w e with
      | Some w' =>
          match run w' rest with
          | Some ws => Some (w' :: ws)
          | None => None
          end
      | None => None
      end
  end.

(** *** Runs of one job *)

(** The settlements and timers of the job in slot [k], in the order
    [startProcessing] awaits them: the upload, the six dwells of the loop,
    the process call. *)
Definition job_events (k : nat) (upload process : AxiosOutcome) : list Event :=
  UploadSettled k upload :: (repeat (TimerFired k) 6 ++ [ProcessSettled k process])%list.

(** The job with the user clicking reset after [n] of its events. *)
Definition interrupted (n k : nat) (upload process : AxiosOutcome) : list Event :=
  (firstn n (job_events k upload process)
     ++ ClickReset :: skipn n (job_events k upload process))%list.

(** Events that are no user input. *)
Definition is_settlement (e : Event) : bool :=
  match e with
  | UploadSettled _ _ | TimerFired _ | ProcessSettled _ _ => true
  | _ => false
  end.

Definition labels (ws : list World) : list (option string) :=
  map (fun w => phase_label (render (ui w))) ws.

Definition results (ws : list World) : list (option Result3D) :=
  map (fun w => result_panel (render (ui w))) ws.

Definition completed (w : World) : bool :=
  match result_panel (render (ui w)) with Some _ => true | None => false end.

Definition is_process_request (r : Request) : bool :=
  String.prefix (BASE_URL ++ "/process/") (req_url r).

(** A process call sent since [w0] and not yet answered on the page. *)
Definition process_in_flight (w0 w : World) : bool :=
  existsb is_process_request (skipn (List.length (net w0)) (net w)) && negb (completed w).

(** A page on which [startProcessing] can be clicked with nothing else in
    flight. *)
Definition ready (w : World) : Prop :=
  generate_button (render (ui w)) = true /\
  (exists file, uploadedFile (ui w) = Some file) /\
  tasks w = [].

(** *** Statements as the specification words them *)

(** The phase display and the process call overlap: at some moment of the
    run the call is in flight while a phase before the last is on
    display. *)
Definition overlap (w0 : World) (ws : list World) : Prop :=
  exists w label,
    In w ws /\ process_in_flight w0 w = true /\
    phase_label (render (ui w)) = Some label /\
    label <> nth 6 processingSteps "".

(** "The cosmetic phase-sequence display and the process network call run
    concurrently but are joined." *)
Definition concurrent_and_joined : Prop :=
  forall w now es ws,
    ready w ->
    forallb is_settlement es = true ->
    run w (ClickGenerate now :: es) = Some ws ->
    completed (last ws w) = true ->
    overlap w ws.

(** "Late-arriving responses from an abandoned job must be detected and
    ignored rather than applied to stale or cleared state": after a reset,
    what the job's requests answer changes nothing on the page and sends
    nothing. *)
Definition late_responses_discarded : Prop :=
  forall w now pre post ws wr,
    ready w ->
    forallb is_settlement (pre ++ post) = true ->
    run w (ClickGenerate now :: pre ++ [ClickReset]) = Some ws ->
    wr = last ws w ->
    forall ws', run wr post = Some ws' ->
    ui (last ws' wr) = ui wr /\ net (last ws' wr) = net wr.

(** "Missing field in, fallback out; present field in, same value out." *)
Definition follows_presence (k : string) (fallback surfaced : jsval)
    (fields : list (string * jsval)) : Prop :=
  if has_field k fields then surfaced = lookup k fields else surfaced = fallback.

Definition metrics_follow_presence : Prop :=
  forall fields st,
    stats_of (JObj fields) = Some st ->
    follows_presence "vertices_count" (JNum 15420) (vertices st) fields /\
    follows_presence "faces_count" (JNum 30840) (faces st) fields /\
    (if has_field "processing_time" fields
     then processingTime st = str (lookup "processing_time" fields) ++ "s"
     else processingTime st = str (JNum 2.3) ++ "s").

(** What [value || fallback] surfaces. *)
Definition surfaces (value fallback surfaced : jsval) : Prop :=
  (truthy value = true /\ surfaced = value) \/
  (truthy value = false /\ surfaced = fallback).

(** *** The pages a session can reach *)

Inductive reachable : World -> Prop :=
| reach_start : reachable start
| reach_step : forall w e w', reachable w -> step w e = Some w' -> reachable w'.

Definition active (t : Task) : bool :=
  match t with Done => false | _ => true end.

(** The invocations of [startProcessing] that have not returned. *)
Definition in_flight (w : World) : nat := List.length (filter active (tasks w)).

Definition timer_in_range (t : Task) : Prop :=
  match t with
  | AwaitTimer i _ _ => (1 <= i <= 6)%nat
  | _ => True
  end.

Definition no_reset (e : Event) : bool :=
  match e with ClickReset => false | _ => true end.

(** What every reachable page satisfies: image and file are selected
    together, the step indexes a phase label, every pending dwell is one
    of the loop's six, and nothing is in flight or shown before an upload
    request has been sent, which is then the first request. *)
Definition well_formed (w : World) : Prop :=
  (uploadedImage (ui w) = None <-> uploadedFile (ui w) = None) /\
  (processingStep (ui w) <= 6)%nat /\
  Forall timer_in_range (tasks w) /\
  match net w with
  | [] => tasks w = [] /\ downloads w = [] /\ result3D (ui w) = None
  | r :: _ => req_method r = POST /\ req_url r = BASE_URL ++ "/upload"
  end.

(** Without a reset, the page is processing exactly while one job is in
    flight, and then shows no result. *)
Definition single_job (w : World) : Prop :=
  in_flight w = (if isProcessing (ui w) then 1 else 0)%nat /\
  (isProcessing (ui w) = true -> result3D (ui w) = None).

(** The job up to the moment its process request goes out. *)
Definition until_process (k : nat) (upload : AxiosOutcome) : list Event :=
  UploadSettled k upload :: repeat (TimerFired k) 6.

End Handlers.

(** *** A sample session *)

Definition photo : File :=
  {| file_name := "cup.png"; file_type := "image/png"; file_data := "PNG" |}.

Definition notes : File :=
  {| file_name := "notes.txt"; file_type := "text/plain"; file_data := "hello" |}.

(** The page once [photo] has been read. *)
Definition picked : World := reader_onload photo "data:image/png;base64,UE5H" start.

Definition uploaded_7 : AxiosOutcome := Fulfilled (JObj [("project_id", JNum 7)]).

Definition processed_empty : AxiosOutcome := Fulfilled (JObj [("project", JObj [])]).

Definition sample_job : list Event := ClickGenerate 1000 :: job_events 0 uploaded_7 processed_empty.

Definition sample_run : list World :=
  match run print_number picked sample_job with Some ws => ws | None => [] end.

(** The page with the result of the sample job on it. *)
Definition finished : World := last sample_run picked.

Definition sample_result : Result3D :=
  {| r_projectId := JNum 7;
     plyFile := "/api/projects/7/download";
     stlFile := "/api/projects/7/download";
     previewImage := Some "data:image/png;base64,UE5H";
     stats := {| vertices := JNum 15420; faces := JNum 30840; processingTime := "2.3s" |} |}.

(** The sample job abandoned by a reset before its upload is answered, and
    the answer arriving afterwards. *)
Definition reset_run : list World :=
  match run print_number picked [ClickGenerate 1000; ClickReset] with
  | Some ws => ws
  | None => []
  end.

Definition abandoned : World := last reset_run picked.

Definition late_run : list World :=
  match run print_number abandoned [UploadSettled 0 uploaded_7] with
  | Some ws => ws
  | None => []
  end.

(** The session from the empty page: [photo] is chosen and read, then the
    sample job runs. *)
Definition opening : list Event :=
  [FileInputChange (Some photo); ReaderLoad 0 "data:image/png;base64,UE5H"].

Definition chosen : World :=
  match step print_number start (FileInputChange (Some photo)) with
  | Some w => w
  | None => start
  end.

Definition selected : World :=
  match step print_number chosen (ReaderLoad 0 "data:image/png;base64,UE5H") with
  | Some w => w
  | None => chosen
  end.

Definition session : list Event := (opening ++ sample_job)%list.

Definition session_run : list World :=
  match run print_number start session with Some ws => ws | None => [] end.

(** The sample job waiting for its upload, and waiting for its process call. *)
Definition uploading : World := startProcessing print_number 1000 selected.

Definition processing : World :=
  match run print_number uploading (until_process 0 uploaded_7) with
  | Some ws => last ws uploading
  | None => uploading
  end.

(** A download of the sample result on its way. *)
Definition downloading : World := handleDownload print_number "ply" sample_result finished.

End UploadPage.

(** ** models/exports/..._viewer.html *)

Module Viewer.

Open Scope Q_scope.

(** three.js vectors and boxes, over exact rationals. *)
Record Vector3 := { x : Q; y : Q; z : Q }.

Definition vec (a b c : Q) : Vector3 := {| x := a; y := b; z := c |}.
Definition zero : Vector3 := vec 0 0 0.
Definition add (a b : Vector3) : Vector3 := vec (x a + x b) (y a + y b) (z a + z b).
Definition sub (a b : Vector3) : Vector3 := vec (x a - x b) (y a - y b) (z a - z b).
Definition multiplyScalar (a : Vector3) (s : Q) : Vector3 := vec (x a * s) (y a * s) (z a * s).
Definition setScalar (s : Q) : Vector3 := vec s s s.

(** Equality of vectors as numbers (two fractions may denote one number). *)
Definition veq (a b : Vector3) : Prop := x a == x b /\ y a == y b /\ z a == z b.

Definition Qltb (a b : Q) : bool := negb (Qle_bool b a).

Record Box3 := { bmin : Vector3; bmax : Vector3 }.

Definition isEmpty (b : Box3) : bool :=
  Qltb (x (bmax b)) (x (bmin b)) || Qltb (y (bmax b)) (y (bmin b))
  || Qltb (z (bmax b)) (z (bmin b)).

Definition getCenter (b : Box3) : Vector3 :=
  if isEmpty b then zero else multiplyScalar (add (bmin b) (bmax b)) 0.5.

Definition getSize (b : Box3) : Vector3 :=
  if isEmpty b then zero else sub (bmax b) (bmin b).

(** The box moved by an offset. *)
Definition moved (b : Box3) (offset : Vector3) : Box3 :=
  {| bmin := add (bmin b) offset; bmax := add (bmax b) offset |}.

(** [Math.max(size.x, size.y, size.z)] *)
Definition largest (size : Vector3) : Q := Qmax (Qmax (x size) (y size)) (z size).

(** A node of the scene graph: its transform, and for a mesh the
    [wireframe] flag of its material. *)
Inductive Object3D := Object {
  position : Vector3;
  scale : Vector3;
  rotation_y : Q;
  isMesh : bool;
  wireframe : bool;
  children : list Object3D
}.

Definition set_position (p : Vector3) (o : Object3D) : Object3D :=
  {| position := p; scale := scale o; rotation_y := rotation_y o; isMesh := isMesh o;
     wireframe := wireframe o; children := children o |}.
Definition set_scale (s : Vector3) (o : Object3D) : Object3D :=
  {| position := position o; scale := s; rotation_y := rotation_y o; isMesh := isMesh o;
     wireframe := wireframe o; children := children o |}.
Definition set_rotation_y (r : Q) (o : Object3D) : Object3D :=
  {| position := position o; scale := scale o; rotation_y := r; isMesh := isMesh o;
     wireframe := wireframe o; children := children o |}.

(** [model.traverse(child => { if (child.isMesh) child.material.wireframe = mode })]:
    the node itself and every descendant. *)
Fixpoint traverse_wireframe (mode : bool) (o : Object3D) : Object3D :=
  {| position := position o; scale := scale o; rotation_y := rotation_y o;
     isMesh := isMesh o;
     wireframe := if isMesh o then mode else wireframe o;
     children := map (traverse_wireframe mode) (children o) |}.

(** The wireframe flags of the meshes of a graph, in traversal order. *)
Fixpoint mesh_flags (o : Object3D) : list bool :=
  (if isMesh o then [wireframe o] else []) ++ flat_map mesh_flags (children o).

(** What GLTFLoader hands over: materials are built with three.js's default
    [wireframe = false] (the asset format has no such attribute). *)
Definition fresh (o : Object3D) : bool := forallb negb (mesh_flags o).

Section Scene.

(** three.js's [new THREE.Box3().setFromObject(model)]. *)
Variable setFromObject : Object3D -> Box3.

(** OrbitControls: its residual motion (damped rotation, pan, zoom) and its
    [update()], which maps that residue, the camera position and the target
    to their next values. *)
Variable Motion : Type.
Variable controls_update : Motion -> Vector3 -> Vector3 -> Motion * Vector3 * Vector3.

(** The script's globals. *)
Record Scene := {
  camera_position : Vector3;
  controls_target : Vector3;
  controls_motion : Motion;
  model : option Object3D;
  wireframeMode : bool;
  autoRotate : bool;
  load_error : bool
}.

Definition set_model (m : option Object3D) (v : Scene) : Scene :=
  {| camera_position := camera_position v; controls_target := controls_target v;
     controls_motion := controls_motion v; model := m;
     wireframeMode := wireframeMode v; autoRotate := autoRotate v;
     load_error := load_error v |}.

(** [controls.update()] *)
Definition update (v : Scene) : Scene :=
  let '(motion, p, t) :=
    controls_update (controls_motion v) (camera_position v) (controls_target v) in
  {| camera_position := p; controls_target := t; controls_motion := motion;
     model := model v; wireframeMode := wireframeMode v; autoRotate := autoRotate v;
     load_error := load_error v |}.

(** [camera.position.set(...)] and [controls.target.copy(...)] *)
Definition set_camera_position (p : Vector3) (v : Scene) : Scene :=
  {| camera_position := p; controls_target := controls_target v;
     controls_motion := controls_motion v; model := model v;
     wireframeMode := wireframeMode v; autoRotate := autoRotate v;
     load_error := load_error v |}.
Definition set_target (t : Vector3) (v : Scene) : Scene :=
  {| camera_position := camera_position v; controls_target := t;
     controls_motion := controls_motion v; model := model v;
     wireframeMode := wireframeMode v; autoRotate := autoRotate v;
     load_error := load_error v |}.

(** [init()], before the loader calls back. *)
Definition init (rest : Motion) : Scene :=
  {| camera_position := vec 0 0 100; controls_target := zero; controls_motion := rest;
     model := None; wireframeMode := false; autoRotate := false; load_error := false |}.

(** "Center the model": [model.position.sub(center)]. *)
Definition centered (gltf_scene : Object3D) : Object3D :=
  let box := setFromObject gltf_scene in
  let center := getCenter box in
  set_position (sub (position gltf_scene) center) gltf_scene.

(** "Scale if needed", on the box taken before centering. *)
Definition scaled (box : Box3) (m : Object3D) : Object3D :=
  let size := getSize box in
  let maxSize := largest size in
  if Qltb 50 maxSize
  then set_scale (setScalar (50 / maxSize)) m
  else m.

(** The model the loader callback adds to the scene. *)
Definition framed (gltf_scene : Object3D) : Object3D :=
  scaled (setFromObject gltf_scene) (centered gltf_scene).

(** The GLTFLoader success callback. *)
Definition onLoad (gltf_scene : Object3D) (v : Scene) : Scene :=
  let center := getCenter (setFromObject gltf_scene) in
  update (set_target center (set_model (Some (framed gltf_scene)) v)).

(** The GLTFLoader error callback: the overlay is replaced by the message. *)
Definition onError (v : Scene) : Scene :=
  {| camera_position := camera_position v; controls_target := controls_target v;
     controls_motion := controls_motion v; model := model v;
     wireframeMode := wireframeMode v; autoRotate := autoRotate v;
     load_error := true |}.

(** One frame of [animate()]. *)
Definition animate (v : Scene) : Scene :=
  let v1 :=
    match model v with
    | Some m =>
        if autoRotate v
        then set_model (Some (set_rotation_y (rotation_y m + 0.01) m)) v
        else v
    | None => v
    end in
  update v1.

Definition resetView (v : Scene) : Scene :=
  match model v with
  | Some m =>
      let box := setFromObject m in
      let center := getCenter box in
      let size := getSize box in
      let maxSize := largest size in
      let distance := maxSize * 2 in
      update (set_target center
                (set_camera_position (vec distance (distance * 0.5) distance) v))
  | None => v
  end.

Definition toggleWireframe (v : Scene) : Scene :=
  match model v with
  | Some m =>
      let mode := negb (wireframeMode v) in
      {| camera_position := camera_position v; controls_target := controls_target v;
         controls_motion := controls_motion v;
         model := Some (traverse_wireframe mode m);
         wireframeMode := mode; autoRotate := autoRotate v;
         load_error := load_error v |}
  | None => v
  end.

Definition toggleAutoRotate (v : Scene) : Scene :=
  {| camera_position := camera_position v; controls_target := controls_target v;
     controls_motion := controls_motion v; model := model v;
     wireframeMode := wireframeMode v; autoRotate := negb (autoRotate v);
     load_error := load_error v |}.

(** Pointer and wheel input leaves a residual motion in the controls. *)
Definition orbit_input (motion : Motion) (v : Scene) : Scene :=
  {| camera_position := camera_position v; controls_target := controls_target v;
     controls_motion := motion; model := model v;
     wireframeMode := wireframeMode v; autoRotate := autoRotate v;
     load_error := load_error v |}.

Inductive Event :=
| Loaded (gltf_scene : Object3D)
| LoadFailed
| Frame
| OrbitInput (motion : Motion)
| ClickResetView
| ClickWireframe
| ClickAutoRotate.

(** The loader is started once by [init] and calls back once, with a fresh
    asset or with an error. *)
Definition loading (v : Scene) : bool :=
  match model v with Some _ => false | None => negb (load_error v) end.

Definition step (v : Scene) (e : Event) : option Scene :=
  match e with
  | Loaded gltf_scene =>
      if loading v && fresh gltf_scene then Some (onLoad gltf_scene v) else None
  | LoadFailed => if loading v then Some (onError v) else None
  | Frame => Some (animate v)
  | OrbitInput motion => Some (orbit_input motion v)
  | ClickResetView => Some (resetView v)
  | ClickWireframe => Some (toggleWireframe v)
  | ClickAutoRotate => Some (toggleAutoRotate v)
  end.

(** The scenes the page can be in. *)
Inductive reachable : Scene -> Prop :=
| reach_init : forall rest, reachable (init rest)
| reach_step : forall v e v', reachable v -> step v e = Some v' -> reachable v'.

(** The flags of the loaded model's meshes. *)
Definition flags (v : Scene) : list bool :=
  match model v with Some m => mesh_flags m | None => [] end.

(** A residue on which [update()] moves nothing: no damped rotation, pan
    or zoom is left. *)
Definition at_rest (motion : Motion) : Prop :=
  forall p t, controls_update motion p t = (motion, p, t).

(** [n] frames of the render loop. *)
Fixpoint frames (n : nat) (v : Scene) : Scene :=
  match n with
  | O => v
  | S n' => frames n' (animate v)
  end.

(** The meshes' flags agree with the global flag, which is still false
    while no model is loaded. *)
Definition consistent (v : Scene) : Prop :=
  flags v = repeat (wireframeMode v) (List.length (flags v)) /\
  (model v = None -> wireframeMode v = false).

End Scene.

(** Induction on a scene graph, with the hypothesis for every child. *)
Fixpoint Object3D_rect' (P : Object3D -> Prop)
    (H : forall p s r m w ch, Forall P ch -> P (Object p s r m w ch))
    (o : Object3D) : P o :=
  match o with
  | Object p s r m w ch =>
      H p s r m w ch
        ((fix all (l : list Object3D) : Forall P l :=
            match l with
            | [] => Forall_nil P
            | c :: l' => Forall_cons c (Object3D_rect' P H c) (all l')
            end) ch)
  end.

(** *** A sample asset *)

Definition leaf (mesh : bool) (ch : list Object3D) : Object3D :=
  {| position := zero; scale := setScalar 1; rotation_y := 0;
     isMesh := mesh; wireframe := false; children := ch |}.

(** A group holding a mesh that holds two more. *)
Definition crate : Object3D := leaf false [leaf true [leaf true []; leaf true []]].

(** A box function for closed examples: the asset spans 120 x 80 x 40 units
    from its origin, times its scale. *)
Definition crate_box (o : Object3D) : Box3 :=
  {| bmin := position o;
     bmax := add (position o)
               (vec (x (scale o) * 120) (y (scale o) * 80) (z (scale o) * 40)) |}.

(** Controls without damping residue. *)
Definition still (motion : unit) (p t : Vector3) : unit * Vector3 * Vector3 := (motion, p, t).

Definition crate_scene : Scene unit := onLoad crate_box unit still crate (init unit tt).

(** The crate as the loader leaves it, the scene with auto rotate on, and
    the scene of a load that failed. *)
Definition crate_model : Object3D := framed crate_box crate.
Definition spinning : Scene unit := toggleAutoRotate unit crate_scene.
Definition failed_scene : Scene unit := onError unit (init unit tt).

End Viewer.

(** * Properties of the upload page *)

Module UploadPageFacts.

Import UploadPage.

(** ** Helper lemmas *)

Lemma lookup_absent k fields : has_field k fields = false -> lookup k fields = JUndefined.
Proof.
  induction fields as [|[k' v] rest IH]; simpl; [reflexivity|].
  intros H. apply orb_false_iff in H as [Hk Hrest].
  rewrite (IH Hrest), Hk. reflexivity.
Qed.

Lemma js_or_surfaces value fallback : surfaces value fallback (js_or value fallback).
Proof.
  unfold surfaces, js_or. destruct (truthy value); [left | right]; split; reflexivity.
Qed.

Lemma nth_error_snoc {A} (l : list A) (a : A) : nth_error (l ++ [a])%list (List.length l) = Some a.
Proof. induction l; simpl; auto. Qed.

Section PageFacts.

Variable NumberToString : Q -> string.
#[local] Abbreviation str := (ToString NumberToString).

#[local] Abbreviation step := (UploadPage.step NumberToString).
#[local] Abbreviation run := (UploadPage.run NumberToString).

Lemma run_cons w e es ws :
  run w (e :: es) = Some ws ->
  exists w' ws', step w e = Some w' /\ run w' es = Some ws' /\ ws = w' :: ws'.
Proof.
  simpl. destruct (UploadPage.step NumberToString w e) as [w'|]; [|discriminate].
  destruct (UploadPage.run NumberToString w' es) as [ws'|] eqn:Hrest; [|discriminate].
  intros H. injection H as <-. exists w', ws'. auto.
Qed.

Lemma last_cons {A} (a d : A) l : last (a :: l) d = last l a.
Proof.
  revert a d. induction l as [|b l IH]; intros a d; [reflexivity|].
  change (last (a :: b :: l) d) with (last (b :: l) d). rewrite !IH. reflexivity.
Qed.

Lemma skipn_length_app {A} (l r : list A) : skipn (List.length l) (l ++ r)%list = r.
Proof. induction l; simpl; auto. Qed.

Lemma result_of_id id image p r :
  result_of NumberToString id image p = Some r -> r_projectId r = id.
Proof.
  unfold result_of. destruct (get p "project") as [project|]; [|discriminate].
  destruct (stats_of NumberToString project); [|discriminate].
  intros H. injection H as <-. reflexivity.
Qed.

Lemma prefix_nil s : String.prefix "" s = true.
Proof. destruct s; reflexivity. Qed.

(** The job's events, run from a ready page with both requests answered. *)
Lemma job_run w now u p id r file :
  ready w ->
  uploadedFile (ui w) = Some file ->
  get u "project_id" = Some id ->
  result_of NumberToString id (uploadedImage (ui w)) p = Some r ->
  let upload := uploadImage_request NumberToString file
                  ("Project_" ++ str (JNum (inject_Z now))) (objectType (ui w)) in
  let process := processProject_request NumberToString id in
  exists ws,
    run w (ClickGenerate now :: job_events 0 (Fulfilled u) (Fulfilled p)) = Some ws /\
    labels ws = (map Some (processingSteps ++ ["Finalizing..."]) ++ [None])%list /\
    results ws = (repeat None 8 ++ [Some r])%list /\
    map net ws = (repeat (net w ++ [upload]) 7 ++ repeat ((net w ++ [upload]) ++ [process]) 2)%list /\
    map (process_in_flight w) ws = (repeat false 7 ++ [true; false])%list /\
    map completed ws = (repeat false 8 ++ [true])%list.
Proof.
  intros (Hgen & _ & Htasks) Hfile Hid Hr.
  destruct w as [s ts rs ds nt sv]. destruct s as [img f pid proc stp res drag ot err].
  simpl in *. subst.
  destruct img as [img|]; [|discriminate]. destruct proc; [discriminate|].
  destruct res; [discriminate|].
  eexists. split.
  - cbn. unfold after_upload. cbn. rewrite Hid. cbn.
    unfold after_process. cbn. rewrite Hr. cbn. reflexivity.
  - unfold labels, results, process_in_flight, completed. cbn.
    rewrite <- !app_assoc, !skipn_length_app. cbn. rewrite prefix_nil.
    repeat split; reflexivity.
Qed.

Lemma completed_iff w : completed w = true <-> exists r, result3D (ui w) = Some r.
Proof.
  unfold completed, render. simpl. destruct (result3D (ui w)) as [r|]; split.
  - eauto.
  - reflexivity.
  - discriminate.
  - intros [r H]. discriminate.
Qed.

Lemma inv_upload w image e w' :
  tasks w = [AwaitUpload image] -> is_settlement e = true -> step w e = Some w' ->
  exists o, e = UploadSettled 0 o /\ w' = after_upload 0 image o w.
Proof.
  intros Ht He. destruct e; try discriminate; simpl; rewrite Ht;
    destruct k as [|[|k]]; simpl; try discriminate.
  intros H. injection H as <-. eauto.
Qed.

Lemma inv_timer w i id image e w' :
  tasks w = [AwaitTimer i id image] -> is_settlement e = true -> step w e = Some w' ->
  e = TimerFired 0 /\ w' = after_timer NumberToString 0 i id image w.
Proof.
  intros Ht He. destruct e; try discriminate; simpl; rewrite Ht;
    destruct k as [|[|k]]; simpl; try discriminate.
  intros H. injection H as <-. auto.
Qed.

Lemma inv_process w id image e w' :
  tasks w = [AwaitProcess id image] -> is_settlement e = true -> step w e = Some w' ->
  exists o, e = ProcessSettled 0 o /\ w' = after_process NumberToString 0 id image o w.
Proof.
  intros Ht He. destruct e; try discriminate; simpl; rewrite Ht;
    destruct k as [|[|k]]; simpl; try discriminate.
  intros H. injection H as <-. eauto.
Qed.

Lemma inv_done w es ws :
  tasks w = [Done] -> forallb is_settlement es = true -> run w es = Some ws -> ws = [].
Proof.
  intros Ht Hes Hrun. destruct es as [|e es]; [simpl in Hrun; congruence|].
  simpl in Hes. apply andb_prop in Hes as [He _].
  apply run_cons in Hrun as (w' & ws' & Hstep & _).
  destruct e; try discriminate; simpl in Hstep; rewrite Ht in Hstep;
    destruct k as [|[|k]]; discriminate.
Qed.

Lemma after_upload_next w image o :
  tasks w = [AwaitUpload image] ->
  let w' := after_upload 0 image o w in
  result3D (ui w') = result3D (ui w) /\
  ((exists u id, o = Fulfilled u /\ get u "project_id" = Some id /\
                 tasks w' = [AwaitTimer 1 id image]) \/
   tasks w' = [Done]).
Proof.
  intros Ht. unfold after_upload. destruct o as [u|response]; simpl.
  - destruct (get u "project_id") as [id|] eqn:Hid; simpl; rewrite Ht; simpl.
    + split; [reflexivity|]. left. eauto.
    + split; [reflexivity | right; reflexivity].
  - rewrite Ht. split; [|right; reflexivity].
    unfold catch_finally. destruct (get _ "error"); reflexivity.
Qed.

Lemma after_timer_next w i id image :
  tasks w = [AwaitTimer i id image] ->
  let w' := after_timer NumberToString 0 i id image w in
  result3D (ui w') = result3D (ui w) /\
  tasks w' = [if Nat.ltb (S i) 7 then AwaitTimer (S i) id image else AwaitProcess id image].
Proof.
  intros Ht. unfold after_timer. simpl List.length.
  destruct (Nat.ltb (S i) 7); simpl; rewrite Ht; auto.
Qed.

Lemma after_process_next w id image o :
  tasks w = [AwaitProcess id image] ->
  result3D (ui w) = None ->
  let w' := after_process NumberToString 0 id image o w in
  tasks w' = [Done] /\
  (completed w' = true ->
   exists p r, o = Fulfilled p /\ result_of NumberToString id image p = Some r).
Proof.
  intros Ht Hres. unfold after_process. simpl. rewrite Ht. split; [reflexivity|].
  rewrite completed_iff. intros [r Hr]. simpl in Hr.
  destruct o as [p|response]; simpl in Hr.
  - destruct (result_of NumberToString id image p) as [r'|] eqn:Hp; [eauto|].
    simpl in Hr. unfold catch_finally in Hr. simpl in Hr. congruence.
  - unfold catch_finally in Hr. destruct (get _ "error"); simpl in Hr; congruence.
Qed.

(** A run of one job without user input that reaches the result is the
    job's events in their one order, each request answered successfully. *)
Lemma completed_run_shape w now es ws :
  ready w ->
  forallb is_settlement es = true ->
  run w (ClickGenerate now :: es) = Some ws ->
  completed (last ws w) = true ->
  exists u p id r,
    es = job_events 0 (Fulfilled u) (Fulfilled p) /\
    get u "project_id" = Some id /\
    result_of NumberToString id (uploadedImage (ui w)) p = Some r.
Proof.
  intros (Hgen & (file & Hfile) & Htasks) Hes Hrun Hdone.
  apply run_cons in Hrun as (w1 & ws1 & Hstep & Hrun & ->).
  rewrite last_cons in Hdone.
  change (step w (ClickGenerate now))
    with (guard (generate_button (render (ui w))) (startProcessing NumberToString now w))
    in Hstep.
  rewrite Hgen in Hstep. simpl in Hstep. injection Hstep as <-.
  assert (Hres : result3D (ui w) = None).
  { unfold render in Hgen. simpl in Hgen. destruct (result3D (ui w)); [|reflexivity].
    rewrite andb_false_r in Hgen. discriminate. }
  set (image := uploadedImage (ui w)) in *.
  remember (startProcessing NumberToString now w) as w1 eqn:Hw1.
  assert (Ht1 : tasks w1 = [AwaitUpload image]).
  { subst w1. unfold startProcessing. rewrite Hfile. simpl. rewrite Htasks. reflexivity. }
  assert (Hr1 : result3D (ui w1) = None).
  { subst w1. unfold startProcessing. rewrite Hfile. simpl. exact Hres. }
  clear Hw1 Hgen Hfile Htasks Hres.
  (* the upload *)
  destruct es as [|e es];
    [simpl in Hrun; injection Hrun as <-; apply completed_iff in Hdone as [r Hr];
     simpl last in Hr; congruence|].
  simpl in Hes. apply andb_prop in Hes as [He Hes].
  apply run_cons in Hrun as (w2 & ws2 & Hstep & Hrun & ->). rewrite last_cons in Hdone.
  destruct (inv_upload _ _ _ _ Ht1 He Hstep) as (o & -> & ->).
  destruct (after_upload_next w1 image o Ht1) as [Hr2 [(u & id & -> & Hid & Ht2) | Ht2]];
    [| rewrite (inv_done _ _ _ Ht2 Hes Hrun) in Hdone;
       apply completed_iff in Hdone as [r Hr]; simpl last in Hr; congruence].
  rewrite Hr1 in Hr2. clear Ht1 Hr1 Hstep He.
  remember (after_upload 0 image (Fulfilled u) w1) as wa eqn:Hwa. clear Hwa.
  (* the six dwells *)
  do 6 (
    destruct es as [|e es];
      [simpl in Hrun; injection Hrun as <-; apply completed_iff in Hdone as [r Hr];
       simpl last in Hr; congruence|];
    simpl in Hes; apply andb_prop in Hes as [He Hes];
    apply run_cons in Hrun as (wb & ? & Hstep & Hrun & ->); rewrite last_cons in Hdone;
    destruct (inv_timer _ _ _ _ _ _ Ht2 He Hstep) as (-> & Hwb);
    match type of Ht2 with
    | tasks wa = [AwaitTimer ?i _ _] =>
        destruct (after_timer_next wa i id image Ht2) as [Hrb Htb]
    end;
    rewrite <- Hwb in Hrb, Htb; rewrite Hr2 in Hrb; simpl in Htb;
    clear Ht2 Hr2 Hstep He Hwb; clear wa;
    rename wb into wa, Htb into Ht2, Hrb into Hr2).
  (* the process call *)
  destruct es as [|e es];
    [simpl in Hrun; injection Hrun as <-; apply completed_iff in Hdone as [r Hr];
     simpl last in Hr; congruence|].
  simpl in Hes. apply andb_prop in Hes as [He Hes].
  apply run_cons in Hrun as (wb & wsb & Hstep & Hrun & ->). rewrite last_cons in Hdone.
  destruct (inv_process _ _ _ _ _ Ht2 He Hstep) as (o & -> & ->).
  destruct (after_process_next wa id image o Ht2 Hr2) as [Htb Hp].
  assert (Hnil : wsb = []) by exact (inv_done _ _ _ Htb Hes Hrun). subst wsb.
  destruct es as [|e' es]; [|apply run_cons in Hrun as (? & ? & _ & _ & ?); discriminate].
  simpl in Hdone. destruct (Hp Hdone) as (p & r & -> & Hr).
  exists u, p, id, r. auto.
Qed.

Lemma run_intro w e es w' ws :
  step w e = Some w' -> run w' es = Some ws -> run w (e :: es) = Some (w' :: ws).
Proof. intros Hs Hr. simpl. rewrite Hs, Hr. reflexivity. Qed.

Ltac flatten :=
  cbv [with_ui with_tasks with_readers with_downloads send save resetUpload
       setUploadedImage setUploadedFile setProjectId setIsProcessing setProcessingStep
       setResult3D setDragOver setObjectType setError
       ui tasks readers downloads net saved uploadedImage uploadedFile projectId
       isProcessing processingStep result3D dragOver objectType error].

Ltac evaluate_step Hid Hr :=
  cbn; try unfold after_upload; try unfold after_process; cbn;
  rewrite ?Hid, ?Hr; cbn; flatten.

Lemma in_map_pair {A B C} (f : A -> B) (g : A -> C) a l :
  In a l -> In (f a, g a) (combine (map f l) (map g l)).
Proof.
  induction l as [|b l IH]; simpl; [tauto|].
  intros [-> | H]; [left; reflexivity | right; auto].
Qed.

(** With the process call in flight only under the last label, nothing
    overlaps. *)
Lemma overlap_absent w ws :
  map (process_in_flight w) ws =
    [false; false; false; false; false; false; false; true; false] ->
  labels ws =
    [Some "Analyzing image..."; Some "Removing background...";
     Some "Generating depth map..."; Some "Creating 3D model...";
     Some "Optimizing mesh..."; Some "Adding colors...";
     Some "Finalizing..."; Some "Finalizing..."; None] ->
  ~ overlap w ws.
Proof.
  intros Hflight Hlabels (w' & label & Hin & Hfl & Hlab & Hne).
  apply (in_map_pair (process_in_flight w) (fun w => phase_label (render (ui w)))) in Hin.
  fold (labels ws) in Hin. rewrite Hflight, Hlabels, Hfl, Hlab in Hin.
  simpl in Hin.
  repeat (destruct Hin as [Hin | Hin]; [try discriminate|]); try contradiction.
  injection Hin as <-. apply Hne. reflexivity.
Qed.

(** ** The phase sequence and the process call *)



(** ** Reset while a job is in flight *)

(** C3 (as amended).  A reset while a job's upload or process request is
    in flight clears the page but neither cancels nor detects the job:
    whatever the number [n] of the job's events that came before the
    reset, the job's later events are applied to the cleared page.  The
    process request is sent with the abandoned job's project id (after
    the reset, unless it was in flight already), its answer puts the
    job's result on the page that has no file any more, and a download
    from that result asks for the abandoned id. *)
Theorem reset_leaves_job_running :
  forall w now u p id r n,
    ready w ->
    get u "project_id" = Some id ->
    result_of NumberToString id (uploadedImage (ui w)) p = Some r ->
    (n < 8)%nat ->
    exists ws wr wd,
      run w (ClickGenerate now :: interrupted n 0 (Fulfilled u) (Fulfilled p)) = Some ws /\
      nth_error ws (S n) = Some wr /\
      uploadedImage (ui wr) = None /\
      uploadedFile (ui wr) = None /\
      result3D (ui wr) = None /\
      projectId (ui wr) = JNull /\
      isProcessing (ui wr) = false /\
      result3D (ui (last ws w)) = Some r /\
      r_projectId r = id /\
      uploadedFile (ui (last ws w)) = None /\
      projectId (ui (last ws w)) = (if Nat.eqb n 0 then id else JNull) /\
      skipn (List.length (net wr)) (net (last ws w)) =
        (if Nat.ltb n 7 then [processProject_request NumberToString id] else []) /\
      In (processProject_request NumberToString id) (net (last ws w)) /\
      step (last ws w) (ClickDownload "ply") = Some wd /\
      net wd = (net (last ws w) ++ [downloadProject_request NumberToString id])%list.
Proof.
  intros w now u p id r n (Hgen & (file & Hfile) & Htasks) Hid Hr Hn.
  pose proof (result_of_id _ _ _ _ Hr) as Hrid.
  destruct w as [s ts rs ds nt sv]. destruct s as [img f pid proc stp res drag ot err].
  simpl in Hgen, Hfile, Htasks, Hr. subst ts f.
  destruct img as [img|]; [|discriminate]. destruct proc; [discriminate|].
  destruct res; [discriminate|].
  do 8 (destruct n as [|n];
    [ eexists; eexists; eexists; split;
      [ cbn [interrupted job_events firstn skipn repeat app];
        repeat (eapply run_intro; [ evaluate_step Hid Hr; reflexivity | ]);
        reflexivity
      | cbn [last nth_error];
        split; [reflexivity|];
        cbn [ui net uploadedImage uploadedFile result3D projectId isProcessing
             Nat.eqb Nat.ltb Nat.leb];
        do 5 (split; [reflexivity|]);
        split; [reflexivity|]; split; [exact Hrid|];
        split; [reflexivity|]; split; [reflexivity|];
        split; [cbn; first [apply skipn_length_app | apply skipn_all]|];
        split; [cbn; rewrite !in_app_iff; simpl; tauto|];
        split; [reflexivity|];
        cbn [handleDownload net send with_downloads]; rewrite Hrid; reflexivity ]
    | ]).
  lia.
Qed.

(** ** Result metrics *)

(** C2 (as amended).  For every [process] response whose [project] is an
    object, a result is surfaced and each metric is what [value || fallback]
    gives: the server's value when that value is truthy, and the fallback
    (15420, 30840, 2.3 before the "s") when the value is falsy; an absent
    field is falsy, and so are a present [0], [null], [false] and [""]. *)
Theorem metrics_truthy_or_fallback :
  forall newProjectId image processResponse fields,
    get processResponse "project" = Some (JObj fields) ->
    exists r,
      result_of NumberToString newProjectId image processResponse = Some r /\
      surfaces (lookup "vertices_count" fields) (JNum 15420) (vertices (stats r)) /\
      surfaces (lookup "faces_count" fields) (JNum 30840) (faces (stats r)) /\
      (exists t, surfaces (lookup "processing_time" fields) (JNum 2.3) t /\
                 processingTime (stats r) = str t ++ "s") /\
      (has_field "vertices_count" fields = false -> vertices (stats r) = JNum 15420) /\
      (has_field "faces_count" fields = false -> faces (stats r) = JNum 30840) /\
      (has_field "processing_time" fields = false ->
         processingTime (stats r) = str (JNum 2.3) ++ "s").
Proof.
  intros id image resp fields Hproject.
  unfold result_of. rewrite Hproject. unfold stats_of. simpl get.
  eexists. split; [reflexivity|]. simpl.
  repeat split; try apply js_or_surfaces.
  - eexists. split; [apply js_or_surfaces | reflexivity].
  - intros H. rewrite (lookup_absent _ _ H). reflexivity.
  - intros H. rewrite (lookup_absent _ _ H). reflexivity.
  - intros H. rewrite (lookup_absent _ _ H). reflexivity.
Qed.

(** ** File validation *)

(** C4.  Handing [handleFileSelect] (directly, from the file input, or
    from a drop) a file that is missing or whose type does not start with
    "image/" sends nothing, starts no reader, sets the error to 'Please
    select a valid image file', and leaves the selected file and image as
    they were; from the empty page, processing cannot be started after it. *)
Theorem non_image_rejected :
  forall file w,
    is_image file = false ->
    let w' := handleFileSelect file w in
    net w' = net w /\
    readers w' = readers w /\
    tasks w' = tasks w /\
    error (ui w') = JStr "Please select a valid image file" /\
    error_banner (render (ui w')) = Some (JStr "Please select a valid image file") /\
    uploadedFile (ui w') = uploadedFile (ui w) /\
    uploadedImage (ui w') = uploadedImage (ui w) /\
    handleFileInputChange file w = w' /\
    net (handleDrop file w) = net w /\
    uploadedFile (ui (handleDrop file w)) = uploadedFile (ui w) /\
    error (ui (handleDrop file w)) = JStr "Please select a valid image file" /\
    (forall now, uploadedFile (ui w) = None ->
       startProcessing NumberToString now w' = w') /\
    (forall now, uploadedImage (ui w) = None ->
       step w' (ClickGenerate now) = None).
Proof.
  intros file w Himg. unfold handleDrop, handleFileInputChange, handleFileSelect.
  rewrite Himg. simpl. repeat split.
  - intros now Hfile. unfold startProcessing. simpl. rewrite Hfile. reflexivity.
  - intros now Himage. simpl. unfold render. simpl. rewrite Himage. reflexivity.
Qed.

(** ** Download *)

(** C9.  With a completed result on the page, a download whose request is
    rejected sets the error to 'Download failed. Please try again.' and
    changes no other cell of the page: the result (project id, stats,
    download links), the project id and the selected file stay, nothing is
    saved, and the result panel is rendered as before. *)
Theorem failed_download_keeps_result :
  forall w r format response,
    result3D (ui w) = Some r ->
    exists w1 w2,
      step w (ClickDownload format) = Some w1 /\
      step w1
        (DownloadSettled (List.length (downloads w)) (Rejected response)) = Some w2 /\
      ui w1 = ui w /\
      ui w2 = setError (JStr "Download failed. Please try again.") (ui w) /\
      error_banner (render (ui w2)) = Some (JStr "Download failed. Please try again.") /\
      result3D (ui w2) = Some r /\
      result_panel (render (ui w2)) = result_panel (render (ui w)) /\
      projectId (ui w2) = projectId (ui w) /\
      saved w2 = saved w /\
      tasks w2 = tasks w.
Proof.
  intros w r format response Hr.
  eexists. eexists. split.
  - simpl. rewrite Hr. reflexivity.
  - split.
    + simpl. unfold handleDownload at 1. simpl. rewrite nth_error_snoc. reflexivity.
    + simpl. rewrite Hr. repeat split.
Qed.

(** C10.  The request sent by a download does not depend on the format:
    for "ply" and for "stl" it is the same GET of
    /api/projects/<id>/download with a blob response, so a server that
    answers by the request answers both with the same bytes; the bytes
    saved are the response as it came, and the format shows only in the
    file name model_<id>.<format>. *)
Theorem download_format_only_names :
  forall w r (server : Request -> jsval),
    let request := downloadProject_request NumberToString (r_projectId r) in
    let k := List.length (downloads w) in
    let fetched format :=
      after_download NumberToString k r format (Fulfilled (server request))
        (handleDownload NumberToString format r w) in
    net (handleDownload NumberToString "ply" r w) = (net w ++ [request])%list /\
    net (handleDownload NumberToString "stl" r w) = (net w ++ [request])%list /\
    req_method request = GET /\
    req_url request = "http://127.0.0.1:5000/api/projects/" ++ str (r_projectId r) ++ "/download" /\
    step (handleDownload NumberToString "ply" r w)
      (DownloadSettled k (Fulfilled (server request))) = Some (fetched "ply") /\
    step (handleDownload NumberToString "stl" r w)
      (DownloadSettled k (Fulfilled (server request))) = Some (fetched "stl") /\
    saved (fetched "ply") =
      (saved w ++ [{| download_name := "model_" ++ str (r_projectId r) ++ ".ply";
                     download_blob := server request |}])%list /\
    saved (fetched "stl") =
      (saved w ++ [{| download_name := "model_" ++ str (r_projectId r) ++ ".stl";
                     download_blob := server request |}])%list /\
    net (fetched "ply") = net (fetched "stl") /\
    ui (fetched "ply") = ui (fetched "stl").
Proof.
  intros w r server request k fetched. subst fetched k request.
  repeat split; simpl;
    unfold handleDownload; simpl; try rewrite nth_error_snoc; reflexivity.
Qed.

End PageFacts.

(** ** The sample session *)

Lemma picked_ready : ready picked.
Proof.
  split; [reflexivity|]. split; [exists photo; reflexivity | reflexivity].
Defined.

Lemma sample_events_settle :
  forallb is_settlement (job_events 0 uploaded_7 processed_empty) = true.
Proof. reflexivity. Qed.

Lemma sample_run_runs :
  UploadPage.run print_number picked
    (ClickGenerate 1000 :: job_events 0 uploaded_7 processed_empty) = Some sample_run.
Proof. vm_compute. reflexivity. Qed.

Lemma sample_run_completed : completed (last sample_run picked) = true.
Proof. vm_compute. reflexivity. Qed.

Lemma sample_labels :
  labels sample_run =
    [Some "Analyzing image..."; Some "Removing background...";
     Some "Generating depth map..."; Some "Creating 3D model...";
     Some "Optimizing mesh..."; Some "Adding colors...";
     Some "Finalizing..."; Some "Finalizing..."; None].
Proof. vm_compute. reflexivity. Qed.

Lemma sample_flight :
  map (process_in_flight picked) sample_run =
    [false; false; false; false; false; false; false; true; false].
Proof. vm_compute. reflexivity. Qed.

Lemma sample_result_surfaced :
  result_of print_number (JNum 7) (uploadedImage (ui picked)) (JObj [("project", JObj [])])
    = Some sample_result.
Proof. vm_compute. reflexivity. Qed.

Lemma finished_result : result3D (ui finished) = Some sample_result.
Proof. vm_compute. reflexivity. Qed.

Lemma reset_run_runs :
  UploadPage.run print_number picked (ClickGenerate 1000 :: [] ++ [ClickReset]) = Some reset_run.
Proof. vm_compute. reflexivity. Qed.

Lemma abandoned_last : abandoned = last reset_run picked.
Proof. unfold abandoned. reflexivity. Qed.

Lemma reset_events_settle : forallb is_settlement ([] ++ [UploadSettled 0 uploaded_7]) = true.
Proof. reflexivity. Qed.

Lemma late_run_runs :
  UploadPage.run print_number abandoned [UploadSettled 0 uploaded_7] = Some late_run.
Proof. vm_compute. reflexivity. Qed.

Lemma late_project_id :
  projectId (ui (last late_run abandoned)) <> projectId (ui abandoned).
Proof. vm_compute. discriminate. Qed.

(** C2, counterexample.  A response with [vertices_count: 0] has the
    field, yet 15420 is surfaced, not 0. *)
Lemma zero_vertices_replaced : ~ metrics_follow_presence print_number.
Proof.
  intros H.
  destruct (H [("vertices_count", JNum 0)]
              {| vertices := JNum 15420; faces := JNum 30840; processingTime := "2.3s" |}
              eq_refl) as [Hv _].
  unfold follows_presence in Hv. simpl in Hv. discriminate Hv.
Qed.

Lemma metrics_truthy_or_fallback_witness :
  get (JObj [("project", JObj [("vertices_count", JNum 20000)])]) "project"
    = Some (JObj [("vertices_count", JNum 20000)]) /\
  exists r,
    result_of print_number (JNum 7) None
      (JObj [("project", JObj [("vertices_count", JNum 20000)])]) = Some r /\
    vertices (stats r) = JNum 20000 /\
    faces (stats r) = JNum 30840 /\
    processingTime (stats r) = "2.3s".
Proof.
  split; [reflexivity|].
  destruct (metrics_truthy_or_fallback print_number (JNum 7) None
              (JObj [("project", JObj [("vertices_count", JNum 20000)])])
              [("vertices_count", JNum 20000)] eq_refl)
    as (r & Hr & [[_ Hv] | [Hv _]] & _ & _ & _ & Hf & Ht); [|discriminate Hv].
  exists r. split; [exact Hr|]. split; [exact Hv|].
  split; [apply Hf; reflexivity | apply Ht; reflexivity].
Defined.

Lemma non_image_rejected_witness :
  is_image (Some notes) = false /\
  net (handleFileSelect (Some notes) start) = [] /\
  uploadedFile (ui (handleFileSelect (Some notes) start)) = None /\
  error (ui (handleFileSelect (Some notes) start)) = JStr "Please select a valid image file" /\
  UploadPage.step print_number (handleFileSelect (Some notes) start) (ClickGenerate 1000) = None.
Proof.
  assert (H : is_image (Some notes) = false) by reflexivity.
  split; [exact H|].
  destruct (non_image_rejected print_number (Some notes) start H)
    as (Hnet & _ & _ & Herr & _ & Hfile & _ & _ & _ & _ & _ & _ & Hgen).
  split; [exact Hnet|]. split; [exact Hfile|]. split; [exact Herr|].
  apply Hgen. reflexivity.
Defined.

Lemma failed_download_keeps_result_witness :
  result3D (ui finished) = Some sample_result /\
  exists w1 w2,
    UploadPage.step print_number finished (ClickDownload "stl") = Some w1 /\
    UploadPage.step print_number w1
      (DownloadSettled (List.length (downloads finished)) (Rejected None)) = Some w2 /\
    result3D (ui w2) = Some sample_result /\
    ui w2 = setError (JStr "Download failed. Please try again.") (ui finished).
Proof.
  split; [exact finished_result|].
  destruct (failed_download_keeps_result print_number finished sample_result "stl" None
              finished_result)
    as (w1 & w2 & H1 & H2 & _ & Hui & _ & Hres & _).
  exists w1, w2. split; [exact H1|]. split; [exact H2|].
  split; [exact Hres | exact Hui].
Defined.




(** C3, counterexample.  Reset right after the click, then the upload is
    answered: the answer's project id lands on the cleared page. *)
Lemma late_upload_applied : ~ late_responses_discarded print_number.
Proof.
  intros H.
  destruct (H picked 1000%Z [] [UploadSettled 0 uploaded_7] reset_run abandoned
              picked_ready reset_events_settle reset_run_runs abandoned_last
              late_run late_run_runs)
    as [Hui _].
  apply late_project_id. rewrite Hui. reflexivity.
Qed.

Lemma reset_leaves_job_running_witness :
  ready picked /\
  get (JObj [("project_id", JNum 7)]) "project_id" = Some (JNum 7) /\
  result_of print_number (JNum 7) (uploadedImage (ui picked)) (JObj [("project", JObj [])])
    = Some sample_result /\
  (0 < 8)%nat /\
  exists ws,
    UploadPage.run print_number picked
      (ClickGenerate 1000
         :: interrupted 0 0 (Fulfilled (JObj [("project_id", JNum 7)]))
              (Fulfilled (JObj [("project", JObj [])]))) = Some ws /\
    result3D (ui (last ws picked)) = Some sample_result /\
    uploadedFile (ui (last ws picked)) = None /\
    In (processProject_request print_number (JNum 7)) (net (last ws picked)).
Proof.
  split; [exact picked_ready|]. split; [reflexivity|].
  split; [exact sample_result_surfaced|]. split; [exact (Nat.lt_0_succ 7)|].
  destruct (reset_leaves_job_running print_number picked 1000
              (JObj [("project_id", JNum 7)]) (JObj [("project", JObj [])]) (JNum 7)
              sample_result 0%nat picked_ready eq_refl sample_result_surfaced
              (Nat.lt_0_succ 7))
    as (ws & wr & wd & Hrun & _ & _ & _ & _ & _ & _ & Hres & _ & Hfile & _ & _ & Hin & _).
  exists ws. split; [exact Hrun|]. split; [exact Hres|]. split; [exact Hfile | exact Hin].
Defined.

End UploadPageFacts.

(** * Properties of the model viewer *)

Module ViewerFacts.

Import Viewer.
Open Scope Q_scope.

Lemma Qltb_lt a b : Qltb a b = true <-> a < b.
Proof.
  unfold Qltb. rewrite negb_true_iff. split.
  - intros H. apply Qnot_le_lt. intros Hle. apply Qle_bool_iff in Hle. congruence.
  - intros H. destruct (Qle_bool b a) eqn:E; [|reflexivity].
    apply Qle_bool_iff in E. apply Qlt_not_le in H. contradiction.
Qed.

Lemma Qltb_ge a b : Qltb a b = false <-> b <= a.
Proof.
  unfold Qltb. rewrite negb_false_iff. apply Qle_bool_iff.
Qed.

Lemma Qltb_shift a b c : Qltb (a + c) (b + c) = Qltb a b.
Proof.
  destruct (Qltb a b) eqn:E.
  - apply Qltb_lt. apply Qltb_lt in E. lra.
  - apply Qltb_ge. apply Qltb_ge in E. lra.
Qed.

Lemma isEmpty_moved b offset : isEmpty (moved b offset) = isEmpty b.
Proof. unfold isEmpty, moved. simpl. rewrite !Qltb_shift. reflexivity. Qed.

(** Moving a box by minus its centre puts its centre at the origin. *)
Lemma centre_moved_to_origin b : veq (getCenter (moved b (sub zero (getCenter b)))) zero.
Proof.
  unfold getCenter at 1. rewrite isEmpty_moved. unfold getCenter.
  destruct (isEmpty b).
  - unfold veq. simpl. repeat split; reflexivity.
  - unfold veq. simpl. repeat split; lra.
Qed.

Lemma flat_map_traverse mode l :
  Forall (fun o => mesh_flags (traverse_wireframe mode o)
                   = repeat mode (List.length (mesh_flags o))) l ->
  flat_map mesh_flags (map (traverse_wireframe mode) l)
  = repeat mode (List.length (flat_map mesh_flags l)).
Proof.
  induction 1 as [|o l Ho _ IH]; simpl; [reflexivity|].
  rewrite Ho, IH, length_app, repeat_app. reflexivity.
Qed.

(** After a traversal every mesh carries the mode, nested ones included. *)
Lemma mesh_flags_traverse mode o :
  mesh_flags (traverse_wireframe mode o) = repeat mode (List.length (mesh_flags o)).
Proof.
  induction o as [p s r m w ch IH] using Object3D_rect'.
  simpl. rewrite (flat_map_traverse mode ch IH), length_app, repeat_app.
  destruct m; reflexivity.
Qed.

Lemma mesh_flags_set_position p o : mesh_flags (set_position p o) = mesh_flags o.
Proof. destruct o; reflexivity. Qed.

Lemma mesh_flags_set_scale s o : mesh_flags (set_scale s o) = mesh_flags o.
Proof. destruct o; reflexivity. Qed.

Lemma mesh_flags_set_rotation_y r o : mesh_flags (set_rotation_y r o) = mesh_flags o.
Proof. destruct o; reflexivity. Qed.

Lemma fresh_flags o : fresh o = true -> mesh_flags o = repeat false (List.length (mesh_flags o)).
Proof.
  unfold fresh. induction (mesh_flags o) as [|b l IH]; simpl; [reflexivity|].
  intros H. apply andb_prop in H as [Hb Hl]. destruct b; [discriminate|].
  rewrite <- (IH Hl). reflexivity.
Qed.

Section SceneFacts.

Variable setFromObject : Object3D -> Box3.
Variable Motion : Type.
Variable controls_update : Motion -> Vector3 -> Vector3 -> Motion * Vector3 * Vector3.

#[local] Abbreviation update := (Viewer.update Motion controls_update).
#[local] Abbreviation onLoad := (Viewer.onLoad setFromObject Motion controls_update).
#[local] Abbreviation resetView := (Viewer.resetView setFromObject Motion controls_update).
#[local] Abbreviation toggleWireframe := (Viewer.toggleWireframe Motion).
#[local] Abbreviation flags := (Viewer.flags Motion).
#[local] Abbreviation reachable := (Viewer.reachable setFromObject Motion controls_update).
#[local] Abbreviation step := (Viewer.step setFromObject Motion controls_update).
#[local] Abbreviation consistent := (Viewer.consistent Motion).

Lemma update_keeps v :
  model Motion (update v) = model Motion v /\
  wireframeMode Motion (update v) = wireframeMode Motion v /\
  autoRotate Motion (update v) = autoRotate Motion v /\
  load_error Motion (update v) = load_error Motion v.
Proof.
  unfold Viewer.update.
  destruct (controls_update _ _ _) as [[motion p] t]. simpl. auto.
Qed.

Lemma mesh_flags_framed g : mesh_flags (framed setFromObject g) = mesh_flags g.
Proof.
  unfold framed, scaled, centered.
  destruct (Qltb 50 _);
    rewrite ?mesh_flags_set_scale, mesh_flags_set_position; reflexivity.
Qed.

Lemma reachable_consistent v : reachable v -> consistent v.
Proof.
  induction 1 as [rest | v e v' _ IH Hstep].
  - split; reflexivity.
  - destruct IH as [Hflags Hnone]. unfold Viewer.consistent, Viewer.flags in *.
    destruct e; simpl in Hstep.
    + (* Loaded *)
      unfold loading in Hstep.
      destruct (model Motion v) eqn:Hm; [discriminate|].
      destruct (negb (load_error Motion v)); [|discriminate].
      destruct (fresh gltf_scene) eqn:Hfresh; [|discriminate].
      injection Hstep as <-. unfold Viewer.onLoad.
      destruct (update_keeps
                  (set_target Motion (getCenter (setFromObject gltf_scene))
                     (set_model Motion (Some (framed setFromObject gltf_scene)) v)))
        as (-> & -> & _). simpl.
      rewrite (Hnone eq_refl), mesh_flags_framed.
      split; [apply fresh_flags; assumption | discriminate].
    + (* LoadFailed *)
      destruct (loading Motion v); [|discriminate]. injection Hstep as <-. simpl. auto.
    + (* Frame *)
      injection Hstep as <-. unfold animate.
      match goal with
      | |- context [Viewer.update _ _ ?s] => destruct (update_keeps s) as (-> & -> & _)
      end.
      destruct (model Motion v) as [m|] eqn:Hm; [|rewrite Hm; auto].
      destruct (autoRotate Motion v); [|rewrite Hm; auto].
      unfold set_model. cbn [model wireframeMode].
      rewrite mesh_flags_set_rotation_y. split; [assumption | discriminate].
    + (* OrbitInput *)
      injection Hstep as <-. simpl. auto.
    + (* ClickResetView *)
      injection Hstep as <-. unfold Viewer.resetView.
      destruct (model Motion v) as [m|] eqn:Hm; [|rewrite Hm; auto].
      match goal with
      | |- context [Viewer.update _ _ ?s] => destruct (update_keeps s) as (-> & -> & _)
      end.
      simpl. rewrite Hm. auto.
    + (* ClickWireframe *)
      injection Hstep as <-. unfold Viewer.toggleWireframe.
      destruct (model Motion v) as [m|] eqn:Hm; [|rewrite Hm; auto].
      simpl. rewrite mesh_flags_traverse, repeat_length.
      split; [reflexivity | discriminate].
    + (* ClickAutoRotate *)
      injection Hstep as <-. simpl. auto.
Qed.

Lemma resetView_at_rest s m :
  model Motion s = Some m ->
  at_rest Motion controls_update (controls_motion Motion s) ->
  resetView s =
  set_target Motion (getCenter (setFromObject m))
    (set_camera_position Motion
       (vec (largest (getSize (setFromObject m)) * 2)
            (largest (getSize (setFromObject m)) * 2 * 0.5)
            (largest (getSize (setFromObject m)) * 2)) s).
Proof.
  intros Hs Hrest. unfold Viewer.resetView. rewrite Hs.
  unfold Viewer.update. simpl. rewrite Hrest. reflexivity.
Qed.

(** ** Framing on load *)


(** ** Wireframe *)

(** C7.  In every scene the page can reach, one call of toggleWireframe
    gives every mesh of the model, nested ones included, the same flag (the
    new global mode), and two calls in a row give every mesh the flag it
    had before them and restore the global mode. *)
Theorem wireframe_toggle_twice :
  forall v,
    reachable v ->
    flags (toggleWireframe (toggleWireframe v)) = flags v /\
    wireframeMode Motion (toggleWireframe (toggleWireframe v)) = wireframeMode Motion v /\
    flags (toggleWireframe v)
      = repeat (wireframeMode Motion (toggleWireframe v)) (List.length (flags v)) /\
    (forall m, model Motion v = Some m ->
       wireframeMode Motion (toggleWireframe v) = negb (wireframeMode Motion v)).
Proof.
  intros v Hreach. destruct (reachable_consistent v Hreach) as [Hflags _].
  unfold Viewer.toggleWireframe, Viewer.flags in *.
  destruct (model Motion v) as [m|] eqn:Hm; simpl.
  - rewrite !mesh_flags_traverse, !repeat_length, negb_involutive.
    repeat split; auto.
  - rewrite ?Hm. repeat split; try reflexivity; try (rewrite Hm; reflexivity).
    intros m H. discriminate H.
Qed.

(** ** Reset view *)


End SceneFacts.


Lemma crate_scene_reachable : reachable crate_box unit still crate_scene.
Proof.
  apply (reach_step crate_box unit still (init unit tt) (Loaded unit crate)).
  - apply reach_init.
  - reflexivity.
Defined.

Lemma wireframe_toggle_twice_witness :
  reachable crate_box unit still crate_scene /\
  Viewer.flags unit (Viewer.toggleWireframe unit crate_scene) = [true; true; true] /\
  Viewer.flags unit (Viewer.toggleWireframe unit (Viewer.toggleWireframe unit crate_scene))
    = Viewer.flags unit crate_scene.
Proof.
  split; [exact crate_scene_reachable|].
  destruct (wireframe_toggle_twice crate_box unit still crate_scene crate_scene_reachable)
    as (Htwice & _ & Honce & _).
  split; [rewrite Honce; reflexivity | exact Htwice].
Defined.


End ViewerFacts.

(** * Properties of the REST client *)

Module ApiFacts.

Lemma lookup_missing k fields : has_field k fields = false -> lookup k fields = JUndefined.
Proof.
  induction fields as [|[k' v] rest IH]; simpl; [reflexivity|].
  intros H. apply orb_false_iff in H as [Hk Hrest].
  rewrite (IH Hrest), Hk. reflexivity.
Qed.

Lemma truthy_get v : truthy v = true -> exists e, get v "error" = Some e.
Proof. destruct v; simpl; try discriminate; eauto. Qed.

(** X1.  Whatever a wrapper throws is truthy, so its [error] property can
    be read without a TypeError: it is the server's error body when that
    body is truthy, and the object [{ error: fallback }] when no response
    came or its body is falsy (empty string, null, 0).  A fulfilled
    request returns its body unchanged. *)
Theorem thrown_value_readable :
  forall fallback response,
    exists v,
      settle fallback (Rejected response) = Throw v /\
      truthy v = true /\
      (exists e, get v "error" = Some e) /\
      (forall d, response = Some d -> truthy d = true -> v = d) /\
      (forall d, response = Some d -> truthy d = false ->
         v = JObj [("error", JStr fallback)] /\ get v "error" = Some (JStr fallback)) /\
      (response = None ->
         v = JObj [("error", JStr fallback)] /\ get v "error" = Some (JStr fallback)).
Proof.
  intros fallback response. unfold settle, js_or.
  destruct response as [d|]; [destruct (truthy d) eqn:Hd|].
  - exists d. split; [reflexivity|]. split; [exact Hd|].
    split; [apply truthy_get; exact Hd|].
    split; [intros d' E _; congruence|].
    split; [intros d' E Hf; congruence | discriminate].
  - eexists. split; [reflexivity|]. split; [reflexivity|].
    split; [eexists; reflexivity|].
    split; [intros d' E Ht; congruence|].
    split; [intros d' E Hf; split; reflexivity | discriminate].
  - eexists. split; [reflexivity|]. split; [reflexivity|].
    split; [eexists; reflexivity|].
    split; [discriminate|].
    split; [discriminate | intros _; split; reflexivity].
Qed.

(** X2.  [handleAPIError] does not understand what the wrappers throw: for
    a rejected request whose error body has no [response] or [request]
    field of its own (no body, a string, a blob, or the documented
    [{ error: message }]), it answers 'An unexpected error occurred',
    whatever the server's message or the wrapper's fallback was. *)
Theorem handleAPIError_forgets_message :
  forall fallback response v,
    plain_body response = true ->
    settle fallback (Rejected response) = Throw v ->
    handleAPIError v = Some (JStr "An unexpected error occurred").
Proof.
  intros fallback response v Hplain Hthrow.
  unfold settle, js_or in Hthrow.
  destruct response as [d|]; simpl in Hthrow.
  - destruct (truthy d) eqn:Hd; injection Hthrow as <-; [|reflexivity].
    destruct d; simpl in Hd; try discriminate; try reflexivity.
    simpl in Hplain. apply andb_prop in Hplain as [H1 H2].
    apply negb_true_iff in H1, H2.
    unfold handleAPIError. simpl.
    rewrite (lookup_missing _ _ H1), (lookup_missing _ _ H2). reflexivity.
  - injection Hthrow as <-. reflexivity.
Qed.

(** X3.  On an axios error whose response carries no body ([data] is
    undefined or null), [handleAPIError] throws a TypeError instead of
    answering; with an object body it answers the body's [error] when
    truthy and 'Server error' otherwise. *)
Theorem handleAPIError_on_response :
  forall error response data,
    get error "response" = Some response ->
    truthy response = true ->
    get response "data" = Some data ->
    ((data = JUndefined \/ data = JNull) -> handleAPIError error = None) /\
    (forall fields, data = JObj fields ->
       handleAPIError error = Some (js_or (lookup "error" fields) (JStr "Server error")) /\
       (has_field "error" fields = false ->
          handleAPIError error = Some (JStr "Server error"))).
Proof.
  intros error response data Hr Ht Hd. unfold handleAPIError.
  rewrite Hr, Ht, Hd. split.
  - intros [-> | ->]; reflexivity.
  - intros fields ->. simpl. split; [reflexivity|].
    intros H. rewrite (lookup_missing _ _ H). reflexivity.
Qed.

(** X4.  [testConnection] never throws: it answers true exactly when the
    health check's request is fulfilled, whatever the body, and false on
    every rejection. *)
Theorem testConnection_total :
  forall o, testConnection o = true <-> exists data, o = Fulfilled data.
Proof.
  intros [data|response]; unfold testConnection; simpl; split.
  - eauto.
  - reflexivity.
  - discriminate.
  - intros [d H]. discriminate.
Qed.

Lemma thrown_value_readable_witness :
  exists v,
    settle "Upload failed" (Rejected (Some (JStr ""))) = Throw v /\
    get v "error" = Some (JStr "Upload failed").
Proof.
  destruct (thrown_value_readable "Upload failed" (Some (JStr "")))
    as (v & Hv & _ & _ & _ & Hfalsy & _).
  exists v. split; [exact Hv|]. exact (proj2 (Hfalsy (JStr "") eq_refl eq_refl)).
Defined.

Lemma handleAPIError_forgets_message_witness :
  plain_body (Some (JObj [("error", JStr "File too large")])) = true /\
  settle "Upload failed" (Rejected (Some (JObj [("error", JStr "File too large")])))
    = Throw (JObj [("error", JStr "File too large")]) /\
  handleAPIError (JObj [("error", JStr "File too large")])
    = Some (JStr "An unexpected error occurred").
Proof.
  split; [reflexivity|]. split; [reflexivity|].
  exact (handleAPIError_forgets_message "Upload failed"
           (Some (JObj [("error", JStr "File too large")]))
           (JObj [("error", JStr "File too large")]) eq_refl eq_refl).
Defined.

Lemma handleAPIError_on_response_witness :
  get (JObj [("response", JObj [("status", JNum 500)])]) "response"
    = Some (JObj [("status", JNum 500)]) /\
  truthy (JObj [("status", JNum 500)]) = true /\
  get (JObj [("status", JNum 500)]) "data" = Some JUndefined /\
  handleAPIError (JObj [("response", JObj [("status", JNum 500)])]) = None.
Proof.
  split; [reflexivity|]. split; [reflexivity|]. split; [reflexivity|].
  apply (proj1 (handleAPIError_on_response
                  (JObj [("response", JObj [("status", JNum 500)])])
                  (JObj [("status", JNum 500)]) JUndefined eq_refl eq_refl eq_refl)).
  left. reflexivity.
Defined.

End ApiFacts.

(** * Further properties of the upload page *)

Module UploadPageMore.

Import UploadPage.

Lemma Forall_set_nth {A} (P : A -> Prop) k x l :
  Forall P l -> P x -> Forall P (set_nth k x l).
Proof.
  intros Hl Hx. revert k. induction Hl as [|y l Hy Hl IH]; intros [|k]; simpl;
    constructor; auto.
Qed.

Lemma nth_error_Forall {A} (P : A -> Prop) k x l :
  Forall P l -> nth_error l k = Some x -> P x.
Proof.
  intros Hl. revert k. induction Hl as [|y l Hy Hl IH]; intros [|k]; simpl; try discriminate.
  - intros H. injection H as <-. exact Hy.
  - apply IH.
Qed.

Lemma set_nth_nil {A} k (x : A) l : set_nth k x l = [] -> l = [].
Proof. destruct l, k; simpl; congruence. Qed.

Lemma nth_error_set_nth {A} k (x y : A) l :
  nth_error l k = Some y -> nth_error (set_nth k x l) k = Some x.
Proof.
  revert k. induction l as [|z l IH]; intros [|k]; simpl; try discriminate; auto.
Qed.

Lemma in_flight_set_nth k t t' l :
  nth_error l k = Some t -> active t = true ->
  List.length (filter active l) =
  (List.length (filter active (set_nth k t' l)) + (if active t' then 0 else 1))%nat.
Proof.
  revert k. induction l as [|z l IH]; intros [|k]; simpl; try discriminate.
  - intros H Ht. injection H as ->. rewrite Ht. destruct (active t'); simpl; lia.
  - intros H Ht. specialize (IH k H Ht). destruct (active z); simpl; lia.
Qed.

Lemma js_or_truthy a b : truthy b = true -> truthy (js_or a b) = true.
Proof. intros H. unfold js_or. destruct (truthy a) eqn:E; assumption. Qed.

(** What the catch block leaves: a message on display and processing off. *)
Lemma catch_finally_message thrown s :
  truthy thrown = true ->
  exists e,
    get thrown "error" = Some e /\
    catch_finally thrown s =
      setIsProcessing false
        (setError (js_or e (JStr "Processing failed. Please try again.")) s) /\
    truthy (error (catch_finally thrown s)) = true.
Proof.
  intros H. destruct (ApiFacts.truthy_get thrown H) as [e He].
  exists e. unfold catch_finally. rewrite He. split; [reflexivity|].
  split; [reflexivity|]. simpl. apply js_or_truthy. reflexivity.
Qed.

Lemma settle_throws_truthy fallback o thrown :
  settle fallback o = Throw thrown -> truthy thrown = true.
Proof.
  destruct o as [data|response]; simpl; [discriminate|].
  intros H. injection H as <-. apply js_or_truthy. reflexivity.
Qed.

Section MoreFacts.

Variable NumberToString : Q -> string.
#[local] Abbreviation str := (ToString NumberToString).
#[local] Abbreviation step := (UploadPage.step NumberToString).
#[local] Abbreviation run := (UploadPage.run NumberToString).
#[local] Abbreviation reachable := (UploadPage.reachable NumberToString).

Ltac split_world w :=
  destruct w as [[img f pid proc stp res drag ot err] ts rs ds nt sv].

Lemma catch_finally_cells thrown s :
  uploadedImage (catch_finally thrown s) = uploadedImage s /\
  uploadedFile (catch_finally thrown s) = uploadedFile s /\
  processingStep (catch_finally thrown s) = processingStep s /\
  result3D (catch_finally thrown s) = result3D s /\
  isProcessing (catch_finally thrown s) = false.
Proof. unfold catch_finally. destruct (get thrown "error"); simpl; auto. Qed.

Lemma first_request_snoc (l : list Request) (r : Request) (A B : Prop) (Q : Request -> Prop) :
  match l with [] => A | x :: _ => Q x end ->
  (l = [] -> Q r) ->
  match (l ++ [r])%list with [] => B | x :: _ => Q x end.
Proof. destruct l; simpl; auto. Qed.

Lemma nonempty_net w k t :
  well_formed w -> nth_error (tasks w) k = Some t ->
  match net w with
  | [] => False
  | r :: _ => req_method r = POST /\ req_url r = BASE_URL ++ "/upload"
  end.
Proof.
  intros (_ & _ & _ & Hnet) Hk. destruct (net w); [|exact Hnet].
  destruct Hnet as (Ht & _). rewrite Ht in Hk. destruct k; discriminate.
Qed.

Lemma wf_cosmetic (g : State -> State) w :
  (forall s, uploadedImage (g s) = uploadedImage s /\ uploadedFile (g s) = uploadedFile s /\
             processingStep (g s) = processingStep s /\ result3D (g s) = result3D s) ->
  well_formed w -> well_formed (with_ui g w).
Proof.
  intros Hg (Hif & Hstp & Hts & Hnet). destruct (Hg (ui w)) as (Hi & Hf & Hs & Hr).
  unfold well_formed. simpl. rewrite Hi, Hf, Hs, Hr. auto.
Qed.

Lemma wf_handleFileSelect file w : well_formed w -> well_formed (handleFileSelect file w).
Proof.
  intros H. unfold handleFileSelect. destruct (is_image file).
  - destruct H as (Hif & Hstp & Hts & Hnet). unfold well_formed. simpl. auto.
  - apply wf_cosmetic; [intros s; simpl; auto | exact H].
Qed.

Lemma wf_reader_onload file dataUrl w :
  well_formed w -> well_formed (reader_onload file dataUrl w).
Proof.
  intros (Hif & Hstp & Hts & Hnet). unfold well_formed, reader_onload. simpl.
  split; [split; discriminate|]. split; [exact Hstp|]. split; [exact Hts|].
  destruct (net w); [|exact Hnet]. tauto.
Qed.

Lemma wf_with_readers r w : well_formed w -> well_formed (with_readers r w).
Proof. intros H. exact H. Qed.

Lemma wf_startProcessing now w : well_formed w -> well_formed (startProcessing NumberToString now w).
Proof.
  intros H. unfold startProcessing. destruct (uploadedFile (ui w)) as [file|] eqn:Hfile; [|exact H].
  destruct H as (Hif & Hstp & Hts & Hnet). unfold well_formed. simpl.
  rewrite Hfile. split; [rewrite Hfile in Hif; exact Hif|]. split; [lia|].
  split; [apply Forall_app; split; [exact Hts | repeat constructor]|].
  apply (first_request_snoc (net w) _ _ _
           (fun r => req_method r = POST /\ req_url r = BASE_URL ++ "/upload") Hnet).
  intros _. split; reflexivity.
Qed.

Lemma wf_after_upload k image o w :
  well_formed w -> nth_error (tasks w) k = Some (AwaitUpload image) ->
  well_formed (after_upload k image o w).
Proof.
  intros H Hk. pose proof (nonempty_net w k _ H Hk) as Hne.
  destruct H as (Hif & Hstp & Hts & Hnet). unfold after_upload.
  assert (Hfail : forall thrown,
            well_formed (with_tasks (set_nth k Done (tasks w)) (with_ui (catch_finally thrown) w))).
  { intros thrown. destruct (catch_finally_cells thrown (ui w)) as (Hi & Hf & Hs & Hr & _).
    unfold well_formed. simpl. rewrite Hi, Hf, Hs, Hr.
    split; [exact Hif|]. split; [exact Hstp|].
    split; [apply Forall_set_nth; [exact Hts | exact I]|].
    destruct (net w); [contradiction | exact Hne]. }
  destruct (uploadImage_result o) as [uploadResponse|thrown]; [|apply Hfail].
  destruct (get uploadResponse "project_id") as [newProjectId|]; [|apply Hfail].
  unfold well_formed. simpl.
  split; [exact Hif|]. split; [lia|].
  split; [apply Forall_set_nth; [exact Hts | simpl; lia]|].
  destruct (net w); [contradiction | exact Hne].
Qed.

Lemma wf_after_timer k i id image w :
  well_formed w -> nth_error (tasks w) k = Some (AwaitTimer i id image) ->
  well_formed (after_timer NumberToString k i id image w).
Proof.
  intros H Hk. pose proof (nonempty_net w k _ H Hk) as Hne.
  destruct H as (Hif & Hstp & Hts & Hnet).
  pose proof (nth_error_Forall _ _ _ _ Hts Hk) as Hi. simpl in Hi.
  unfold after_timer. simpl List.length.
  destruct (Nat.ltb (S i) 7) eqn:Hlt.
  - apply Nat.ltb_lt in Hlt. unfold well_formed. simpl.
    split; [exact Hif|]. split; [lia|].
    split; [apply Forall_set_nth; [exact Hts | simpl; lia]|].
    destruct (net w); [contradiction | exact Hne].
  - unfold well_formed. simpl.
    split; [exact Hif|]. split; [exact Hstp|].
    split; [apply Forall_set_nth; [exact Hts | exact I]|].
    destruct (net w); [contradiction | exact Hne].
Qed.

Lemma wf_after_process k id image o w :
  well_formed w -> nth_error (tasks w) k = Some (AwaitProcess id image) ->
  well_formed (after_process NumberToString k id image o w).
Proof.
  intros H Hk. pose proof (nonempty_net w k _ H Hk) as Hne.
  destruct H as (Hif & Hstp & Hts & Hnet). unfold after_process.
  assert (Hfail : forall thrown,
            well_formed (with_tasks (set_nth k Done (tasks w)) (with_ui (catch_finally thrown) w))).
  { intros thrown. destruct (catch_finally_cells thrown (ui w)) as (Hi & Hf & Hs & Hr & _).
    unfold well_formed. simpl. rewrite Hi, Hf, Hs, Hr.
    split; [exact Hif|]. split; [exact Hstp|].
    split; [apply Forall_set_nth; [exact Hts | exact I]|].
    destruct (net w); [contradiction | exact Hne]. }
  destruct (processProject_result o) as [processResponse|thrown]; [|apply Hfail].
  destruct (result_of NumberToString id image processResponse) as [r|]; [|apply Hfail].
  unfold well_formed. simpl.
  split; [exact Hif|]. split; [exact Hstp|].
  split; [apply Forall_set_nth; [exact Hts | exact I]|].
  destruct (net w); [contradiction | exact Hne].
Qed.

Lemma wf_reset w : well_formed w -> well_formed (with_ui resetUpload w).
Proof.
  intros (Hif & Hstp & Hts & Hnet). unfold well_formed. simpl.
  split; [tauto|]. split; [lia|]. split; [exact Hts|].
  destruct (net w); [|exact Hnet]. tauto.
Qed.

Lemma wf_handleDownload format r w :
  well_formed w -> result3D (ui w) = Some r ->
  well_formed (handleDownload NumberToString format r w).
Proof.
  intros (Hif & Hstp & Hts & Hnet) Hr. unfold well_formed, handleDownload. simpl.
  split; [exact Hif|]. split; [exact Hstp|]. split; [exact Hts|].
  destruct (net w); [|exact Hnet]. destruct Hnet as (_ & _ & Hnone). congruence.
Qed.

Lemma wf_after_download k r format o w :
  well_formed w -> nth_error (downloads w) k = Some (Some (r, format)) ->
  well_formed (after_download NumberToString k r format o w).
Proof.
  intros (Hif & Hstp & Hts & Hnet) Hk. unfold after_download.
  assert (Hne : net w <> []).
  { intros E. rewrite E in Hnet. destruct Hnet as (_ & Hd & _). rewrite Hd in Hk.
    destruct k; discriminate. }
  destruct (downloadProject_result o); unfold well_formed; simpl;
    (split; [exact Hif|]; split; [exact Hstp|]; split; [exact Hts|];
     destruct (net w); [congruence | exact Hnet]).
Qed.

Lemma step_well_formed w e w' : well_formed w -> step w e = Some w' -> well_formed w'.
Proof.
  intros H Hstep. destruct e; simpl in Hstep; unfold guard in Hstep.
  - destruct (negb _); [|discriminate]. injection Hstep as <-.
    apply wf_cosmetic; [intros s; simpl; auto | exact H].
  - destruct (negb _); [|discriminate]. injection Hstep as <-.
    apply wf_cosmetic; [intros s; simpl; auto | exact H].
  - destruct (negb _); [|discriminate]. injection Hstep as <-.
    unfold handleDrop. apply wf_handleFileSelect.
    apply wf_cosmetic; [intros s; simpl; auto | exact H].
  - destruct (negb _); [|discriminate]. injection Hstep as <-.
    apply wf_handleFileSelect. exact H.
  - destruct (nth_error (readers w) k) as [[file|]|]; try discriminate.
    injection Hstep as <-. apply wf_reader_onload. exact H.
  - destruct (match uploadedImage (ui w) with Some _ => true | None => false end);
      [|discriminate].
    injection Hstep as <-. apply wf_cosmetic; [intros s; simpl; auto | exact H].
  - destruct (_ && _); [|discriminate]. injection Hstep as <-.
    apply wf_startProcessing. exact H.
  - destruct (nth_error (tasks w) k) as [[image|i id image|id image|]|] eqn:Hk;
      try discriminate.
    injection Hstep as <-. apply wf_after_upload; assumption.
  - destruct (nth_error (tasks w) k) as [[image|i id image|id image|]|] eqn:Hk;
      try discriminate.
    injection Hstep as <-. apply wf_after_timer; assumption.
  - destruct (nth_error (tasks w) k) as [[image|i id image|id image|]|] eqn:Hk;
      try discriminate.
    injection Hstep as <-. apply wf_after_process; assumption.
  - destruct (match uploadedImage (ui w) with Some _ => true | None => false end);
      [|discriminate].
    injection Hstep as <-. apply wf_reset. exact H.
  - destruct (result3D (ui w)) as [r|] eqn:Hr; [|discriminate].
    injection Hstep as <-. apply wf_handleDownload; assumption.
  - destruct (nth_error (downloads w) k) as [[[r format]|]|] eqn:Hk; try discriminate.
    injection Hstep as <-. apply wf_after_download; assumption.
Qed.

Lemma reachable_well_formed w : reachable w -> well_formed w.
Proof.
  induction 1 as [|w e w' _ IH Hstep].
  - unfold well_formed. simpl. repeat split; auto. lia.
  - exact (step_well_formed w e w' IH Hstep).
Qed.

(** ** What every reachable page satisfies *)

(** X5.  On every page a session can reach, a rendered Generate button
    always uploads: a file is selected whenever an image is shown, so the
    guard at the head of startProcessing never turns the click away; the
    click sends one upload request for that file with the chosen object
    type and turns processing on. *)
Theorem generate_always_uploads :
  forall w now,
    reachable w ->
    generate_button (render (ui w)) = true ->
    exists file w',
      uploadedFile (ui w) = Some file /\
      step w (ClickGenerate now) = Some w' /\
      net w' = (net w ++ [uploadImage_request NumberToString file
                            ("Project_" ++ str (JNum (inject_Z now)))
                            (objectType (ui w))])%list /\
      tasks w' = (tasks w ++ [AwaitUpload (uploadedImage (ui w))])%list /\
      isProcessing (ui w') = true /\
      phase_label (render (ui w')) = Some "Analyzing image...".
Proof.
  intros w now Hreach Hgen.
  destruct (reachable_well_formed w Hreach) as (Hif & _).
  assert (Himg : uploadedImage (ui w) <> None).
  { unfold render in Hgen. simpl in Hgen. destruct (uploadedImage (ui w)); [discriminate|].
    discriminate Hgen. }
  destruct (uploadedFile (ui w)) as [file|] eqn:Hfile; [|exfalso; apply Himg, Hif; reflexivity].
  exists file. eexists. split; [reflexivity|].
  split.
  { change (step w (ClickGenerate now))
      with (guard (generate_button (render (ui w))) (startProcessing NumberToString now w)).
    rewrite Hgen. unfold startProcessing. rewrite Hfile. reflexivity. }
  simpl. repeat split.
Qed.

(** X6.  On every reachable page the processing step indexes one of the
    seven labels: whenever the processing panel is rendered, its text is
    one of them (never blank), and every pending dwell belongs to one of
    the loop's six iterations. *)
Theorem phase_label_in_range :
  forall w,
    reachable w ->
    (processingStep (ui w) < List.length processingSteps)%nat /\
    (forall label, phase_label (render (ui w)) = Some label -> In label processingSteps) /\
    (forall k i id image, nth_error (tasks w) k = Some (AwaitTimer i id image) ->
       (1 <= i <= 6)%nat).
Proof.
  intros w Hreach. destruct (reachable_well_formed w Hreach) as (_ & Hstp & Hts & _).
  assert (Hlt : (processingStep (ui w) < List.length processingSteps)%nat) by (simpl; lia).
  split; [exact Hlt|]. split.
  - intros label H.
    change (phase_label (render (ui w)))
      with (if isProcessing (ui w)
            then Some (nth (processingStep (ui w)) processingSteps "")
            else None) in H.
    destruct (isProcessing (ui w)); [|discriminate].
    injection H as <-. exact (nth_In processingSteps "" Hlt).
  - intros k i id image Hk. exact (nth_error_Forall _ _ _ _ Hts Hk).
Qed.

(** X7.  On every reachable page the first request ever sent is the
    upload (POST /api/upload), and before it nothing is in flight, nothing
    is being downloaded and no result is shown: the process and download
    endpoints are never contacted first. *)
Theorem upload_is_first_request :
  forall w,
    reachable w ->
    (net w = [] -> tasks w = [] /\ downloads w = [] /\ result3D (ui w) = None) /\
    (forall r rest, net w = r :: rest ->
       req_method r = POST /\ req_url r = "http://127.0.0.1:5000/api/upload").
Proof.
  intros w Hreach. destruct (reachable_well_formed w Hreach) as (_ & _ & _ & Hnet).
  split.
  - intros E. rewrite E in Hnet. exact Hnet.
  - intros r rest E. rewrite E in Hnet. exact Hnet.
Qed.

(** ** Failures *)



(** A process body without [project] gives no result. *)
Lemma no_project_no_result id image fields :
  has_field "project" fields = false ->
  result_of NumberToString id image (JObj fields) = None.
Proof.
  intros H. unfold result_of. simpl. rewrite (ApiFacts.lookup_missing _ _ H). reflexivity.
Qed.

(** ** Download *)

(** X10.  A download that succeeds hands the browser exactly one file and
    changes nothing on the page: no cell of the state is written, so an
    error left by an earlier failure stays on display; the settled
    download takes no second answer. *)
Theorem successful_download_keeps_page :
  forall w k r format data,
    nth_error (downloads w) k = Some (Some (r, format)) ->
    exists w',
      step w (DownloadSettled k (Fulfilled data)) = Some w' /\
      ui w' = ui w /\
      error_banner (render (ui w')) = error_banner (render (ui w)) /\
      saved w' = (saved w ++ [{| download_name := "model_" ++ str (r_projectId r) ++ "." ++ format;
                                  download_blob := data |}])%list /\
      net w' = net w /\
      tasks w' = tasks w /\
      (forall o, step w' (DownloadSettled k o) = None).
Proof.
  intros w k r format data Hk. eexists. split; [simpl; rewrite Hk; reflexivity|].
  simpl. repeat split.
  intros o. rewrite (nth_error_set_nth k None _ _ Hk). reflexivity.
Qed.

(** ** One job at a time *)

Lemma single_cosmetic (g : State -> State) w :
  (forall s, isProcessing (g s) = isProcessing s /\
             (result3D (g s) = result3D s \/ result3D (g s) = None)) ->
  single_job w -> single_job (with_ui g w).
Proof.
  intros Hg (Hn & Hr). destruct (Hg (ui w)) as (Hp & Hres).
  unfold single_job, in_flight in *. simpl. rewrite Hp. split; [exact Hn|].
  intros H. destruct Hres as [-> | ->]; auto.
Qed.

Lemma single_handleFileSelect file w : single_job w -> single_job (handleFileSelect file w).
Proof.
  intros H. unfold handleFileSelect. destruct (is_image file).
  - exact H.
  - apply single_cosmetic; [intros s; simpl; auto | exact H].
Qed.

Lemma single_fail k t thrown w :
  single_job w -> nth_error (tasks w) k = Some t -> active t = true ->
  single_job (with_tasks (set_nth k Done (tasks w)) (with_ui (catch_finally thrown) w)).
Proof.
  intros (Hn & Hr) Hk Ht.
  destruct (catch_finally_cells thrown (ui w)) as (_ & _ & _ & Hres & Hp).
  pose proof (in_flight_set_nth k t Done _ Hk Ht) as Hc. simpl in Hc.
  unfold single_job, in_flight in *. simpl. rewrite Hp.
  split; [|discriminate].
  destruct (isProcessing (ui w)); lia.
Qed.

Lemma single_continue k t t' (g : State -> State) w :
  (forall s, isProcessing (g s) = isProcessing s /\ result3D (g s) = result3D s) ->
  single_job w -> nth_error (tasks w) k = Some t -> active t = true -> active t' = true ->
  single_job (with_tasks (set_nth k t' (tasks w)) (with_ui g w)).
Proof.
  intros Hg (Hn & Hr) Hk Ht Ht'. destruct (Hg (ui w)) as (Hp & Hres).
  pose proof (in_flight_set_nth k t t' _ Hk Ht) as Hc. rewrite Ht' in Hc.
  unfold single_job, in_flight in *. simpl. rewrite Hp, Hres. split; [lia | exact Hr].
Qed.

Lemma step_single_job w e w' :
  no_reset e = true -> single_job w -> step w e = Some w' -> single_job w'.
Proof.
  intros He H Hstep. destruct e; try discriminate He; simpl in Hstep; unfold guard in Hstep.
  - destruct (negb _); [|discriminate]. injection Hstep as <-.
    apply single_cosmetic; [intros s; simpl; auto | exact H].
  - destruct (negb _); [|discriminate]. injection Hstep as <-.
    apply single_cosmetic; [intros s; simpl; auto | exact H].
  - destruct (negb _); [|discriminate]. injection Hstep as <-.
    unfold handleDrop. apply single_handleFileSelect.
    apply single_cosmetic; [intros s; simpl; auto | exact H].
  - destruct (negb _); [|discriminate]. injection Hstep as <-.
    apply single_handleFileSelect. exact H.
  - destruct (nth_error (readers w) k) as [[file|]|]; try discriminate.
    injection Hstep as <-. unfold reader_onload.
    apply (single_cosmetic _ (with_readers _ w)); [intros s; simpl; auto | exact H].
  - destruct (match uploadedImage (ui w) with Some _ => true | None => false end);
      [|discriminate].
    injection Hstep as <-. apply single_cosmetic; [intros s; simpl; auto | exact H].
  - destruct (match uploadedImage (ui w) with Some _ => true | None => false end);
      [|discriminate].
    simpl in Hstep.
    destruct (isProcessing (ui w)) eqn:Hp; [discriminate|].
    destruct (result3D (ui w)) eqn:Hres; [discriminate|].
    injection Hstep as <-. unfold startProcessing.
    destruct (uploadedFile (ui w)); [|exact H].
    destruct H as (Hn & _). rewrite Hp in Hn.
    unfold single_job, in_flight in *. simpl.
    rewrite filter_app, length_app, Hn. simpl. split; [reflexivity | intros _; exact Hres].
  - destruct (nth_error (tasks w) k) as [[image|i id image|id image|]|] eqn:Hk;
      try discriminate.
    injection Hstep as <-. unfold after_upload.
    destruct (uploadImage_result o) as [uploadResponse|thrown];
      [|exact (single_fail k _ thrown w H Hk eq_refl)].
    destruct (get uploadResponse "project_id") as [newProjectId|];
      [|exact (single_fail k _ TypeError w H Hk eq_refl)].
    apply (single_continue k (AwaitUpload image)); auto; intros s; simpl; auto.
  - destruct (nth_error (tasks w) k) as [[image|i id image|id image|]|] eqn:Hk;
      try discriminate.
    injection Hstep as <-. unfold after_timer.
    destruct (Nat.ltb _ _).
    + apply (single_continue k (AwaitTimer i id image)); auto; intros s; simpl; auto.
    + apply (single_continue k (AwaitTimer i id image) _ (fun s => s) (send _ w)); auto.
  - destruct (nth_error (tasks w) k) as [[image|i id image|id image|]|] eqn:Hk;
      try discriminate.
    injection Hstep as <-. unfold after_process.
    destruct (processProject_result o) as [processResponse|thrown];
      [|exact (single_fail k _ thrown w H Hk eq_refl)].
    destruct (result_of NumberToString id image processResponse) as [r|];
      [|exact (single_fail k _ TypeError w H Hk eq_refl)].
    destruct H as (Hn & Hr).
    pose proof (in_flight_set_nth k _ Done _ Hk eq_refl) as Hc. simpl in Hc.
    unfold single_job, in_flight in *. simpl. split; [|discriminate].
    destruct (isProcessing (ui w)); lia.
  - destruct (result3D (ui w)) as [r|] eqn:Hr; [|discriminate].
    injection Hstep as <-. exact H.
  - destruct (nth_error (downloads w) k) as [[[r format]|]|] eqn:Hk; try discriminate.
    injection Hstep as <-. unfold after_download.
    destruct (downloadProject_result o).
    + exact H.
    + apply (single_cosmetic _ w); [intros s; simpl; auto | exact H].
Qed.

Lemma run_single_job es : forall w ws,
  forallb no_reset es = true -> single_job w -> run w es = Some ws -> Forall single_job ws.
Proof.
  induction es as [|e es IH]; intros w ws Hes H Hrun.
  - simpl in Hrun. injection Hrun as <-. constructor.
  - simpl in Hes. apply andb_prop in Hes as [He Hes].
    apply (UploadPageFacts.run_cons NumberToString) in Hrun as (w' & ws' & Hstep & Hrun & ->).
    pose proof (step_single_job w e w' He H Hstep) as H'.
    constructor; [exact H' | exact (IH w' ws' Hes H' Hrun)].
Qed.

(** X11.  As long as reset is not clicked, the page never has two jobs in
    flight: it is processing exactly while one invocation of
    startProcessing is pending, the Generate button is rendered only when
    none is, and the processing panel and the result panel are never
    rendered together. *)
Theorem one_job_without_reset :
  forall es ws,
    forallb no_reset es = true ->
    run start es = Some ws ->
    Forall (fun w =>
              (in_flight w <= 1)%nat /\
              (isProcessing (ui w) = true <-> in_flight w = 1%nat) /\
              (generate_button (render (ui w)) = true -> in_flight w = 0%nat) /\
              (phase_label (render (ui w)) = None \/ result_panel (render (ui w)) = None))
           ws.
Proof.
  intros es ws Hes Hrun.
  assert (H0 : single_job start) by (split; [reflexivity | discriminate]).
  pose proof (run_single_job es start ws Hes H0 Hrun) as Hall.
  apply (Forall_impl _ (P := single_job)); [|exact Hall].
  intros w (Hn & Hr). unfold render. simpl.
  destruct (isProcessing (ui w)) eqn:Hp.
  - rewrite Hn. split; [lia|]. split; [tauto|]. split.
    + rewrite andb_false_r. discriminate.
    + right. apply Hr. reflexivity.
  - rewrite Hn. split; [lia|]. split; [split; discriminate|]. split; auto.
Qed.

(** ** Edge responses and retries *)

Ltac flat :=
  cbv [with_ui with_tasks with_readers with_downloads send save resetUpload
       setUploadedImage setUploadedFile setProjectId setIsProcessing setProcessingStep
       setResult3D setDragOver setObjectType setError
       ui tasks readers downloads net saved uploadedImage uploadedFile projectId
       isProcessing processingStep result3D dragOver objectType error].

Ltac one_step Hid :=
  cbn; try unfold after_upload; try unfold catch_finally; cbn; rewrite ?Hid; cbn; flat.

(** X12.  An upload answered with an object that has no [project_id] is
    not treated as a failure: the job goes on with the id [undefined],
    shows its phases, and after the six dwells sends the process request
    to /api/process/undefined. *)
Theorem missing_project_id_is_processed :
  forall w now file fields,
    ready w ->
    uploadedFile (ui w) = Some file ->
    has_field "project_id" fields = false ->
    exists ws,
      run w (ClickGenerate now :: until_process 0 (Fulfilled (JObj fields))) = Some ws /\
      projectId (ui (last ws w)) = JUndefined /\
      isProcessing (ui (last ws w)) = true /\
      error (ui (last ws w)) = JStr "" /\
      net (last ws w) =
        ((net w ++ [uploadImage_request NumberToString file
                      ("Project_" ++ str (JNum (inject_Z now))) (objectType (ui w))])
           ++ [processProject_request NumberToString JUndefined])%list /\
      req_url (processProject_request NumberToString JUndefined)
        = "http://127.0.0.1:5000/api/process/undefined".
Proof.
  intros w now file fields (Hgen & _ & Htasks) Hfile Hmissing.
  assert (Hid : lookup "project_id" fields = JUndefined)
    by exact (ApiFacts.lookup_missing _ _ Hmissing).
  split_world w. simpl in Hgen, Hfile, Htasks. subst ts f.
  destruct img as [img|]; [|discriminate]. destruct proc; [discriminate|].
  destruct res; [discriminate|].
  eexists. split.
  { cbn [until_process repeat].
    repeat (eapply (UploadPageFacts.run_intro NumberToString); [one_step Hid; reflexivity|]).
    reflexivity. }
  cbn [last]. flat. repeat split.
Qed.

Lemma rejected_upload_message response :
  exists message,
    truthy message = true /\
    forall k image w,
      after_upload k image (Rejected response) w =
      with_tasks (set_nth k Done (tasks w))
        (with_ui (fun s => setIsProcessing false (setError message s)) w).
Proof.
  destruct (uploadImage_result (Rejected response)) as [?|thrown] eqn:E; [discriminate E|].
  pose proof (settle_throws_truthy _ _ _ E) as Ht.
  destruct (ApiFacts.truthy_get thrown Ht) as [e He].
  exists (js_or e (JStr "Processing failed. Please try again.")).
  split; [apply js_or_truthy; reflexivity|].
  intros k image w. unfold after_upload. rewrite E. unfold catch_finally. rewrite He.
  reflexivity.
Qed.


End MoreFacts.

(** ** The sample session, again *)

Lemma chosen_step :
  UploadPage.step print_number start (FileInputChange (Some photo)) = Some chosen.
Proof. vm_compute. reflexivity. Qed.

Lemma selected_step :
  UploadPage.step print_number chosen (ReaderLoad 0 "data:image/png;base64,UE5H")
    = Some selected.
Proof. vm_compute. reflexivity. Qed.

Lemma selected_reachable : UploadPage.reachable print_number selected.
Proof.
  apply (reach_step print_number chosen (ReaderLoad 0 "data:image/png;base64,UE5H")).
  - apply (reach_step print_number start (FileInputChange (Some photo))).
    + apply reach_start.
    + exact chosen_step.
  - exact selected_step.
Qed.

Lemma selected_generate : generate_button (render (ui selected)) = true.
Proof. vm_compute. reflexivity. Qed.

Lemma selected_file : uploadedFile (ui selected) = Some photo.
Proof. vm_compute. reflexivity. Qed.

Lemma selected_ready : ready selected.
Proof.
  split; [exact selected_generate|].
  split; [exists photo; exact selected_file | vm_compute; reflexivity].
Qed.

Lemma uploading_task : nth_error (tasks uploading) 0 = Some (AwaitUpload (uploadedImage (ui selected))).
Proof. vm_compute. reflexivity. Qed.

Lemma processing_task :
  nth_error (tasks processing) 0 = Some (AwaitProcess (JNum 7) (uploadedImage (ui selected))).
Proof. vm_compute. reflexivity. Qed.

Lemma downloading_pending :
  nth_error (downloads downloading) 0 = Some (Some (sample_result, "ply")).
Proof. vm_compute. reflexivity. Qed.

Lemma session_no_reset : forallb no_reset session = true.
Proof. vm_compute. reflexivity. Qed.

Lemma session_runs : UploadPage.run print_number start session = Some session_run.
Proof. vm_compute. reflexivity. Qed.

Lemma session_in_flight :
  map in_flight session_run = [0; 0; 1; 1; 1; 1; 1; 1; 1; 1; 0]%nat.
Proof. vm_compute. reflexivity. Qed.

Lemma generate_always_uploads_witness :
  UploadPage.reachable print_number selected /\
  generate_button (render (ui selected)) = true /\
  exists w',
    UploadPage.step print_number selected (ClickGenerate 1000) = Some w' /\
    isProcessing (ui w') = true.
Proof.
  split; [exact selected_reachable|]. split; [exact selected_generate|].
  destruct (generate_always_uploads print_number selected 1000
              selected_reachable selected_generate)
    as (file & w' & _ & Hstep & _ & _ & Hp & _).
  exists w'. split; [exact Hstep | exact Hp].
Defined.

Lemma phase_label_in_range_witness :
  UploadPage.reachable print_number selected /\
  (processingStep (ui selected) < 7)%nat.
Proof.
  split; [exact selected_reachable|].
  exact (proj1 (phase_label_in_range print_number selected selected_reachable)).
Defined.

Lemma upload_is_first_request_witness :
  UploadPage.reachable print_number selected /\
  (net selected = [] -> tasks selected = [] /\ downloads selected = [] /\
                        result3D (ui selected) = None).
Proof.
  split; [exact selected_reachable|].
  exact (proj1 (upload_is_first_request print_number selected selected_reachable)).
Defined.



Lemma successful_download_keeps_page_witness :
  nth_error (downloads downloading) 0 = Some (Some (sample_result, "ply")) /\
  exists w',
    UploadPage.step print_number downloading (DownloadSettled 0 (Fulfilled (JBlob "ply")))
      = Some w' /\
    ui w' = ui downloading.
Proof.
  split; [exact downloading_pending|].
  destruct (successful_download_keeps_page print_number downloading 0 sample_result "ply"
              (JBlob "ply") downloading_pending)
    as (w' & Hstep & Hui & _).
  exists w'. split; [exact Hstep | exact Hui].
Defined.

Lemma one_job_without_reset_witness :
  forallb no_reset session = true /\
  UploadPage.run print_number start session = Some session_run /\
  Forall (fun w => (in_flight w <= 1)%nat) session_run.
Proof.
  split; [exact session_no_reset|]. split; [exact session_runs|].
  apply (Forall_impl _ (P := fun w =>
           (in_flight w <= 1)%nat /\
           (isProcessing (ui w) = true <-> in_flight w = 1%nat) /\
           (generate_button (render (ui w)) = true -> in_flight w = 0%nat) /\
           (phase_label (render (ui w)) = None \/ result_panel (render (ui w)) = None))).
  - intros w H. exact (proj1 H).
  - exact (one_job_without_reset print_number session session_run
             session_no_reset session_runs).
Defined.

Lemma missing_project_id_is_processed_witness :
  ready selected /\
  uploadedFile (ui selected) = Some photo /\
  has_field "project_id" [("id", JNum 7)] = false /\
  exists ws,
    UploadPage.run print_number selected
      (ClickGenerate 1000 :: until_process 0 (Fulfilled (JObj [("id", JNum 7)]))) = Some ws /\
    projectId (ui (last ws selected)) = JUndefined.
Proof.
  split; [exact selected_ready|]. split; [exact selected_file|]. split; [reflexivity|].
  destruct (missing_project_id_is_processed print_number selected 1000 photo
              [("id", JNum 7)] selected_ready selected_file eq_refl)
    as (ws & Hrun & Hid & _).
  exists ws. split; [exact Hrun | exact Hid].
Defined.


End UploadPageMore.

(** * Further properties of the model viewer *)

Module ViewerMore.

Import Viewer.
Open Scope Q_scope.

Lemma traverse_keeps mode o :
  position (traverse_wireframe mode o) = position o /\
  scale (traverse_wireframe mode o) = scale o /\
  rotation_y (traverse_wireframe mode o) = rotation_y o.
Proof. destruct o; simpl; auto. Qed.

(** ** Boxes *)

Lemma largest_size_nonneg b : 0 <= largest (getSize b).
Proof.
  unfold getSize. destruct (isEmpty b) eqn:E.
  - vm_compute. discriminate.
  - unfold isEmpty in E. apply orb_false_iff in E as [E _].
    apply orb_false_iff in E as [Ex _].
    apply ViewerFacts.Qltb_ge in Ex. unfold largest. simpl.
    apply Qle_trans with (y := x (bmax b) - x (bmin b)); [lra|].
    apply Qle_trans with (2 := Q.le_max_l _ _). apply Q.le_max_l.
Qed.

Lemma empty_box_zero b :
  isEmpty b = true -> getSize b = zero /\ getCenter b = zero.
Proof. intros E. unfold getSize, getCenter. rewrite E. split; reflexivity. Qed.

Section MoreSceneFacts.

Variable setFromObject : Object3D -> Box3.
Variable Motion : Type.
Variable controls_update : Motion -> Vector3 -> Vector3 -> Motion * Vector3 * Vector3.

#[local] Abbreviation update := (Viewer.update Motion controls_update).
#[local] Abbreviation onLoad := (Viewer.onLoad setFromObject Motion controls_update).
#[local] Abbreviation animate := (Viewer.animate Motion controls_update).
#[local] Abbreviation frames := (Viewer.frames Motion controls_update).
#[local] Abbreviation resetView := (Viewer.resetView setFromObject Motion controls_update).
#[local] Abbreviation toggleWireframe := (Viewer.toggleWireframe Motion).
#[local] Abbreviation flags := (Viewer.flags Motion).
#[local] Abbreviation reachable := (Viewer.reachable setFromObject Motion controls_update).
#[local] Abbreviation step := (Viewer.step setFromObject Motion controls_update).

(** ** Framing *)


(** ** Reset view *)

(** X15.  With the controls at rest, resetView puts the camera at
    (d, d/2, d) with d twice the largest dimension, never at a negative
    coordinate; for an empty box the camera lands on the origin, which is
    then also the orbit target, so camera and target coincide. *)
Theorem resetView_camera_placement :
  forall v m,
    at_rest Motion controls_update (controls_motion Motion v) ->
    model Motion v = Some m ->
    let c := camera_position Motion (resetView v) in
    0 <= x c /\ z c = x c /\ y c = x c * 0.5 /\
    x c == 2 * largest (getSize (setFromObject m)) /\
    (isEmpty (setFromObject m) = true ->
       veq c zero /\ controls_target Motion (resetView v) = zero).
Proof.
  intros v m Hrest Hm c. subst c.
  rewrite (ViewerFacts.resetView_at_rest setFromObject Motion controls_update v m Hm Hrest).
  simpl.
  pose proof (largest_size_nonneg (setFromObject m)) as Hl.
  split; [lra|]. split; [reflexivity|]. split; [reflexivity|]. split; [lra|].
  intros E. destruct (empty_box_zero _ E) as [Hs Hc]. rewrite Hs, Hc.
  split; [|reflexivity]. vm_compute. repeat split; reflexivity.
Qed.

(** ** Before and after the load *)

(** X16.  While no model is loaded, the Reset View and Wireframe buttons
    do nothing at all, so the wireframe mode is still off when the asset
    arrives: however often Wireframe was clicked before, every mesh of the
    freshly loaded model is solid. *)
Theorem wireframe_clicks_before_load_are_lost :
  forall v gltf_scene,
    reachable v ->
    model Motion v = None ->
    fresh gltf_scene = true ->
    toggleWireframe v = v /\
    resetView v = v /\
    wireframeMode Motion v = false /\
    wireframeMode Motion (onLoad gltf_scene v) = false /\
    Forall (fun flag => flag = false) (flags (onLoad gltf_scene v)).
Proof.
  intros v g Hreach Hm Hfresh.
  destruct (ViewerFacts.reachable_consistent setFromObject Motion controls_update v Hreach)
    as [_ Hnone].
  split; [unfold Viewer.toggleWireframe; rewrite Hm; reflexivity|].
  split; [unfold Viewer.resetView; rewrite Hm; reflexivity|].
  split; [exact (Hnone Hm)|].
  unfold Viewer.onLoad, Viewer.flags.
  match goal with
  | |- context [Viewer.update _ _ ?s] =>
      destruct (ViewerFacts.update_keeps Motion controls_update s) as (-> & -> & _)
  end.
  simpl. split; [exact (Hnone Hm)|].
  rewrite (ViewerFacts.mesh_flags_framed setFromObject g).
  rewrite (ViewerFacts.fresh_flags g Hfresh). apply Forall_forall.
  intros flag Hin. exact (repeat_spec _ _ _ Hin).
Qed.

(** X17.  A load error is final: in every reachable scene an error means
    that no model is loaded, and no later event loads one or clears the
    error. *)
Theorem load_error_is_final :
  forall v,
    reachable v ->
    load_error Motion v = true ->
    model Motion v = None /\
    forall e v', step v e = Some v' ->
      load_error Motion v' = true /\ model Motion v' = None.
Proof.
  assert (Hinv : forall v, reachable v -> load_error Motion v = true -> model Motion v = None).
  { induction 1 as [rest | v e v' _ IH Hstep]; [discriminate|].
    destruct e; simpl in Hstep.
    - unfold loading in Hstep. destruct (model Motion v); [discriminate|].
      destruct (load_error Motion v) eqn:E; [discriminate|].
      destruct (fresh gltf_scene); [|discriminate]. injection Hstep as <-.
      unfold Viewer.onLoad.
      match goal with
      | |- context [Viewer.update _ _ ?s] =>
          destruct (ViewerFacts.update_keeps Motion controls_update s) as (_ & _ & _ & ->)
      end. simpl. congruence.
    - unfold loading in Hstep. destruct (model Motion v) eqn:Hm; [discriminate|].
      destruct (negb _); [|discriminate]. injection Hstep as <-. intros _. exact Hm.
    - injection Hstep as <-. unfold Viewer.animate.
      match goal with
      | |- context [Viewer.update _ _ ?s] =>
          destruct (ViewerFacts.update_keeps Motion controls_update s) as (-> & _ & _ & ->)
      end.
      destruct (model Motion v) eqn:Hm; [|intros _; exact Hm].
      destruct (autoRotate Motion v); simpl; intros E; specialize (IH E); congruence.
    - injection Hstep as <-. exact IH.
    - injection Hstep as <-. unfold Viewer.resetView.
      destruct (model Motion v) eqn:Hm; [|rewrite Hm; exact IH].
      match goal with
      | |- context [Viewer.update _ _ ?s] =>
          destruct (ViewerFacts.update_keeps Motion controls_update s) as (-> & _ & _ & ->)
      end. simpl. intros E. specialize (IH E). congruence.
    - injection Hstep as <-. unfold Viewer.toggleWireframe.
      destruct (model Motion v) eqn:Hm; [|rewrite Hm; exact IH].
      simpl. intros E. specialize (IH E). congruence.
    - injection Hstep as <-. exact IH. }
  intros v Hreach Herr. split; [exact (Hinv v Hreach Herr)|].
  intros e v' Hstep.
  assert (Herr' : load_error Motion v' = true).
  { pose proof (Hinv v Hreach Herr) as Hm.
    destruct e; simpl in Hstep.
    - unfold loading in Hstep. rewrite Hm, Herr in Hstep. discriminate.
    - unfold loading in Hstep. rewrite Hm, Herr in Hstep. discriminate.
    - injection Hstep as <-. unfold Viewer.animate. rewrite Hm.
      destruct (ViewerFacts.update_keeps Motion controls_update v) as (_ & _ & _ & ->).
      exact Herr.
    - injection Hstep as <-. exact Herr.
    - injection Hstep as <-. unfold Viewer.resetView. rewrite Hm. exact Herr.
    - injection Hstep as <-. unfold Viewer.toggleWireframe. rewrite Hm. exact Herr.
    - injection Hstep as <-. exact Herr. }
  split; [exact Herr'|].
  apply Hinv; [|exact Herr'].
  exact (reach_step setFromObject Motion controls_update v e v' Hreach Hstep).
Qed.

(** X18.  Once a model is loaded, no event replaces, moves or rescales it
    or changes its meshes: the load callback cannot fire again, and every
    other event leaves position, scale and the number of meshes as they
    are; only a frame of the render loop may turn it about the vertical
    axis. *)
Theorem loaded_model_stays_framed :
  forall v e v' m,
    model Motion v = Some m ->
    step v e = Some v' ->
    exists m',
      model Motion v' = Some m' /\
      position m' = position m /\
      scale m' = scale m /\
      List.length (mesh_flags m') = List.length (mesh_flags m) /\
      (e <> Frame Motion -> rotation_y m' = rotation_y m).
Proof.
  intros v e v' m Hm Hstep. destruct e; simpl in Hstep.
  - unfold loading in Hstep. rewrite Hm in Hstep. discriminate.
  - unfold loading in Hstep. rewrite Hm in Hstep. discriminate.
  - injection Hstep as <-. unfold Viewer.animate. rewrite Hm.
    match goal with
    | |- context [Viewer.update _ _ ?s] =>
        destruct (ViewerFacts.update_keeps Motion controls_update s) as (-> & _)
    end.
    destruct (autoRotate Motion v).
    + eexists. split; [reflexivity|].
      rewrite ViewerFacts.mesh_flags_set_rotation_y.
      destruct m; simpl. repeat split. congruence.
    + exists m. rewrite Hm. repeat split.
  - injection Hstep as <-. exists m. simpl. rewrite Hm. repeat split.
  - injection Hstep as <-. unfold Viewer.resetView. rewrite Hm.
    match goal with
    | |- context [Viewer.update _ _ ?s] =>
        destruct (ViewerFacts.update_keeps Motion controls_update s) as (-> & _)
    end.
    exists m. simpl. rewrite Hm. repeat split.
  - injection Hstep as <-. unfold Viewer.toggleWireframe. rewrite Hm.
    eexists. split; [reflexivity|].
    destruct (traverse_keeps (negb (wireframeMode Motion v)) m) as (-> & -> & ->).
    rewrite ViewerFacts.mesh_flags_traverse, repeat_length. repeat split.
  - injection Hstep as <-. exists m. simpl. rewrite Hm. repeat split.
Qed.

(** ** Auto rotate *)


End MoreSceneFacts.

Lemma crate_is_large : 50 < largest (getSize (crate_box crate)).
Proof. vm_compute. reflexivity. Qed.


Lemma crate_scene_model : model unit crate_scene = Some crate_model.
Proof. vm_compute. reflexivity. Qed.

Lemma crate_scene_at_rest : at_rest unit still (controls_motion unit crate_scene).
Proof. intros p t. reflexivity. Qed.

Lemma resetView_camera_placement_witness :
  at_rest unit still (controls_motion unit crate_scene) /\
  model unit crate_scene = Some crate_model /\
  0 <= x (camera_position unit (Viewer.resetView crate_box unit still crate_scene)).
Proof.
  split; [exact crate_scene_at_rest|]. split; [exact crate_scene_model|].
  exact (proj1 (resetView_camera_placement crate_box unit still crate_scene crate_model
                  crate_scene_at_rest crate_scene_model)).
Defined.

Lemma wireframe_clicks_before_load_are_lost_witness :
  Viewer.reachable crate_box unit still (init unit tt) /\
  model unit (init unit tt) = None /\
  fresh crate = true /\
  Viewer.toggleWireframe unit (init unit tt) = init unit tt /\
  wireframeMode unit (Viewer.onLoad crate_box unit still crate (init unit tt)) = false.
Proof.
  assert (Hreach : Viewer.reachable crate_box unit still (init unit tt)) by apply reach_init.
  split; [exact Hreach|]. split; [reflexivity|]. split; [reflexivity|].
  destruct (wireframe_clicks_before_load_are_lost crate_box unit still (init unit tt) crate
              Hreach eq_refl eq_refl) as (Htoggle & _ & _ & Hmode & _).
  split; [exact Htoggle | exact Hmode].
Defined.

Lemma failed_scene_reachable : Viewer.reachable crate_box unit still failed_scene.
Proof.
  apply (reach_step crate_box unit still (init unit tt) (LoadFailed unit)).
  - apply reach_init.
  - reflexivity.
Qed.

Lemma load_error_is_final_witness :
  Viewer.reachable crate_box unit still failed_scene /\
  load_error unit failed_scene = true /\
  model unit failed_scene = None /\
  Viewer.step crate_box unit still failed_scene (Loaded unit crate) = None.
Proof.
  split; [exact failed_scene_reachable|]. split; [reflexivity|].
  destruct (load_error_is_final crate_box unit still failed_scene
              failed_scene_reachable eq_refl) as (Hm & _).
  split; [exact Hm | reflexivity].
Defined.

Lemma loaded_model_stays_framed_witness :
  model unit crate_scene = Some crate_model /\
  Viewer.step crate_box unit still crate_scene (ClickWireframe unit)
    = Some (Viewer.toggleWireframe unit crate_scene) /\
  exists m',
    model unit (Viewer.toggleWireframe unit crate_scene) = Some m' /\
    position m' = position crate_model /\
    scale m' = scale crate_model.
Proof.
  split; [exact crate_scene_model|]. split; [reflexivity|].
  destruct (loaded_model_stays_framed crate_box unit still crate_scene (ClickWireframe unit)
              (Viewer.toggleWireframe unit crate_scene) crate_model
              crate_scene_model eq_refl) as (m' & Hm' & Hpos & Hscale & _).
  exists m'. split; [exact Hm'|]. split; [exact Hpos | exact Hscale].
Defined.

Lemma spinning_model : model unit spinning = Some crate_model.
Proof. vm_compute. reflexivity. Qed.


End ViewerMore.
